(** * DocumentAIProcessor: the session client of static/js/app.js

    A shallow embedding of the class [DocumentAIProcessor] and of the two
    handlers installed after it (window [error], document
    [visibilitychange]).  The object's two fields, the part of the document
    the methods read and write, and the browser's interval timers are one
    record [App]; every method is a function on it.  An [async] method is cut
    at its [await]s: it runs to the first one and returns what it is waiting
    for together with the code that follows, so that other handlers can run
    in between, as they do in the browser. *)

From Stdlib Require Import Ascii String.
From stdpp Require Import gmap strings list.

Set Warnings "-register-all".
Local Open Scope string_scope.

(** ** Values exchanged with the server and the user *)

(** A [File] of [fileInput.files]. *)
Record File := { name : string; size : N }.

(** An entry of [status.files]. *)
Record FileRecord := { filename : string; file_type : string; status : string }.

(** An entry of [quiz.questions]; [options] keeps the order of
    [Object.entries]. *)
Record Question := {
  question : string;
  options : list (string * string);
  correct_answer : string;
  explanation : string
}.

(** An entry of the array answered by [/saved-sessions]. *)
Record SavedSession := { session_id : string; session_name : string; updated_at : string }.

(** The value [response.json()] resolves to: the objects and the array of
    the server's answers, and the values on which the client's property reads
    behave otherwise: an object with a status and no files, [OtherBody] for
    an object carrying none of the properties the client reads, an object
    whose only such property is a numeric length, a string, and null. *)
Inductive Body :=
| UploadBody (session_id : string)
| StatusBody (status : string) (files : list FileRecord)
| SummaryBody (content : string)
| QuizBody (questions : list Question)
| SessionsBody (sessions : list SavedSession)
| OtherBody
| StatusOnlyBody (status : string)
| LengthBody (length : nat)
| StringBody (s : string)
| NullBody.

(** Reading a property of [null] throws; of any other value it gives the
    property, or [undefined]. *)
Definition is_null (b : Body) : bool :=
  match b with NullBody => true | _ => false end.

(** Property reads; [None] is JavaScript's [undefined]. *)
Definition get_session_id (b : Body) : option string :=
  match b with UploadBody s => Some s | _ => None end.
Definition get_status (b : Body) : option string :=
  match b with StatusBody s _ | StatusOnlyBody s => Some s | _ => None end.
Definition get_files (b : Body) : option (list FileRecord) :=
  match b with StatusBody _ fs => Some fs | _ => None end.
Definition get_content (b : Body) : option string :=
  match b with SummaryBody c => Some c | _ => None end.
Definition get_questions (b : Body) : option (list Question) :=
  match b with QuizBody qs => Some qs | _ => None end.
Definition get_array (b : Body) : option (list SavedSession) :=
  match b with SessionsBody ss => Some ss | _ => None end.

(** [b.length === 0], for [b] not null. *)
Definition length_is_0 (b : Body) : bool :=
  match b with
  | SessionsBody [] | LengthBody 0 | StringBody "" => true
  | _ => false
  end.

(** A thrown value; only its [message] is ever read. *)
Record Error := { message : string }.

(** A settled promise. *)
Inductive Outcome (A : Type) :=
| Resolved (v : A)
| Rejected (e : Error).
Arguments Resolved {A} v.
Arguments Rejected {A} e.

(** A [Response]: [json] is what [response.json()] settles to. *)
Record Response := { ok : bool; statusText : string; json : Outcome Body }.

Inductive FormValue :=
| FormFile (f : File)
| FormText (s : string).

(** The arguments of a [fetch] call; [body] is the [FormData], if any. *)
Record Request := {
  method : string;
  url : string;
  body : option (list (string * FormValue))
}.

Definition GET (u : string) : Request :=
  {| method := "GET"; url := u; body := None |}.
Definition POST (u : string) (formData : list (string * FormValue)) : Request :=
  {| method := "POST"; url := u; body := Some formData |}.

(** ** What the page shows *)

(** A row appended to [processingStatus] by [displayProcessingStatus]: the
    file name, the file type (which the row shows in upper case: the case
    mapping is the browser's and is not part of the model), the class of the
    badge and its text. *)
Record StatusRow := {
  row_filename : string;
  row_file_type : string;
  row_class : string;
  row_status : string
}.

(** A block appended to [quizContent] by [displayQuiz]. *)
Record QuizItem := { item_index : nat; item_question : Question }.

(** What [getFileIcon] returns. *)
Record Icon := { icon_class : string; icon_color : string }.

(** The content of [historyList]. *)
Inductive HistoryList :=
| NoSavedSessions
| SessionItems (items : list SavedSession).

(** ** What the browser is asked to do *)

Inductive Effect :=
| Fetch (req : Request)
| Toast (message type : string)
| ConsoleError (label : string) (e : Error)
| SetInterval (t : positive) (ms : nat)
| ClearInterval (t : positive).

(** ** The state *)

Record App := mkApp {
  (* this *)
  currentSessionId : option string;
  statusCheckInterval : option positive;
  (* document *)
  hidden : gset string;            (* ids of the elements whose classList has 'hidden' *)
  value : gmap string string;      (* .value of sessionName, summaryType, questionCount *)
  fileInput_files : list File;
  uploadBtn_disabled : bool;
  fileList : list File;            (* one item per file *)
  processingStatus : list StatusRow;
  summaryContent : string;
  quizContent : list QuizItem;
  historyList : HistoryList;
  document_hidden : bool;
  (* window *)
  timers : list positive;          (* the intervals set and not cleared *)
  next_timer : positive;           (* the handle the next setInterval returns *)
  log : list Effect                (* requests, toasts, console errors, timer calls, oldest first *)
}.

Definition set_currentSessionId (v : option string) (a : App) : App :=
  mkApp v (statusCheckInterval a) (hidden a) (value a) (fileInput_files a)
    (uploadBtn_disabled a) (fileList a) (processingStatus a) (summaryContent a)
    (quizContent a) (historyList a) (document_hidden a) (timers a) (next_timer a) (log a).
Definition set_statusCheckInterval (v : option positive) (a : App) : App :=
  mkApp (currentSessionId a) v (hidden a) (value a) (fileInput_files a)
    (uploadBtn_disabled a) (fileList a) (processingStatus a) (summaryContent a)
    (quizContent a) (historyList a) (document_hidden a) (timers a) (next_timer a) (log a).
Definition set_hidden (v : gset string) (a : App) : App :=
  mkApp (currentSessionId a) (statusCheckInterval a) v (value a) (fileInput_files a)
    (uploadBtn_disabled a) (fileList a) (processingStatus a) (summaryContent a)
    (quizContent a) (historyList a) (document_hidden a) (timers a) (next_timer a) (log a).
Definition set_value (v : gmap string string) (a : App) : App :=
  mkApp (currentSessionId a) (statusCheckInterval a) (hidden a) v (fileInput_files a)
    (uploadBtn_disabled a) (fileList a) (processingStatus a) (summaryContent a)
    (quizContent a) (historyList a) (document_hidden a) (timers a) (next_timer a) (log a).
Definition set_fileInput_files (v : list File) (a : App) : App :=
  mkApp (currentSessionId a) (statusCheckInterval a) (hidden a) (value a) v
    (uploadBtn_disabled a) (fileList a) (processingStatus a) (summaryContent a)
    (quizContent a) (historyList a) (document_hidden a) (timers a) (next_timer a) (log a).
Definition set_uploadBtn_disabled (v : bool) (a : App) : App :=
  mkApp (currentSessionId a) (statusCheckInterval a) (hidden a) (value a) (fileInput_files a)
    v (fileList a) (processingStatus a) (summaryContent a)
    (quizContent a) (historyList a) (document_hidden a) (timers a) (next_timer a) (log a).
Definition set_fileList (v : list File) (a : App) : App :=
  mkApp (currentSessionId a) (statusCheckInterval a) (hidden a) (value a) (fileInput_files a)
    (uploadBtn_disabled a) v (processingStatus a) (summaryContent a)
    (quizContent a) (historyList a) (document_hidden a) (timers a) (next_timer a) (log a).
Definition set_processingStatus (v : list StatusRow) (a : App) : App :=
  mkApp (currentSessionId a) (statusCheckInterval a) (hidden a) (value a) (fileInput_files a)
    (uploadBtn_disabled a) (fileList a) v (summaryContent a)
    (quizContent a) (historyList a) (document_hidden a) (timers a) (next_timer a) (log a).
Definition set_summaryContent (v : string) (a : App) : App :=
  mkApp (currentSessionId a) (statusCheckInterval a) (hidden a) (value a) (fileInput_files a)
    (uploadBtn_disabled a) (fileList a) (processingStatus a) v
    (quizContent a) (historyList a) (document_hidden a) (timers a) (next_timer a) (log a).
Definition set_quizContent (v : list QuizItem) (a : App) : App :=
  mkApp (currentSessionId a) (statusCheckInterval a) (hidden a) (value a) (fileInput_files a)
    (uploadBtn_disabled a) (fileList a) (processingStatus a) (summaryContent a)
    v (historyList a) (document_hidden a) (timers a) (next_timer a) (log a).
Definition set_historyList (v : HistoryList) (a : App) : App :=
  mkApp (currentSessionId a) (statusCheckInterval a) (hidden a) (value a) (fileInput_files a)
    (uploadBtn_disabled a) (fileList a) (processingStatus a) (summaryContent a)
    (quizContent a) v (document_hidden a) (timers a) (next_timer a) (log a).
Definition set_document_hidden (v : bool) (a : App) : App :=
  mkApp (currentSessionId a) (statusCheckInterval a) (hidden a) (value a) (fileInput_files a)
    (uploadBtn_disabled a) (fileList a) (processingStatus a) (summaryContent a)
    (quizContent a) (historyList a) v (timers a) (next_timer a) (log a).
Definition set_timers (v : list positive) (a : App) : App :=
  mkApp (currentSessionId a) (statusCheckInterval a) (hidden a) (value a) (fileInput_files a)
    (uploadBtn_disabled a) (fileList a) (processingStatus a) (summaryContent a)
    (quizContent a) (historyList a) (document_hidden a) v (next_timer a) (log a).
Definition set_next_timer (v : positive) (a : App) : App :=
  mkApp (currentSessionId a) (statusCheckInterval a) (hidden a) (value a) (fileInput_files a)
    (uploadBtn_disabled a) (fileList a) (processingStatus a) (summaryContent a)
    (quizContent a) (historyList a) (document_hidden a) (timers a) v (log a).
Definition set_log (v : list Effect) (a : App) : App :=
  mkApp (currentSessionId a) (statusCheckInterval a) (hidden a) (value a) (fileInput_files a)
    (uploadBtn_disabled a) (fileList a) (processingStatus a) (summaryContent a)
    (quizContent a) (historyList a) (document_hidden a) (timers a) (next_timer a) v.

(** ** The browser's primitives *)

(** [if (x)] on a string-or-null: null, undefined and the empty string are
    falsy. *)
Definition truthy (v : option string) : bool :=
  match v with
  | Some s => negb (String.eqb s "")
  | None => false
  end.

(** A value inside a template literal. *)
Definition interpolate (v : option string) : string :=
  match v with
  | Some s => s
  | None => "null"
  end.

Definition emit (e : Effect) (a : App) : App := set_log (log a ++ [e]) a.

(** [element.classList.add('hidden')] and [.remove('hidden')]. *)
Definition classList_add_hidden (id : string) (a : App) : App :=
  set_hidden ({[ id ]} ∪ hidden a) a.
Definition classList_remove_hidden (id : string) (a : App) : App :=
  set_hidden (hidden a ∖ {[ id ]}) a.
Definition classList_contains_hidden (id : string) (a : App) : bool :=
  bool_decide (id ∈ hidden a).

(** [document.getElementById(id).value], read and written. *)
Definition get_value (id : string) (a : App) : string :=
  default "" (value a !! id).
Definition put_value (id : string) (v : string) (a : App) : App :=
  set_value (<[ id := v ]> (value a)) a.

(** [setInterval] returns a handle never returned before. *)
Definition setInterval (ms : nat) (a : App) : positive * App :=
  let t := next_timer a in
  (t, emit (SetInterval t ms) (set_next_timer (Pos.succ t) (set_timers (timers a ++ [t]) a))).

Definition clearInterval (t : positive) (a : App) : App :=
  emit (ClearInterval t) (set_timers (filter (λ x, x ≠ t) (timers a)) a).

(** [fetch(...)] sends the request at once; what it resolves to comes later. *)
Definition fetch (req : Request) (a : App) : App := emit (Fetch req) a.

(** [console.error(label, error)]. *)
Definition console_error (label : string) (e : Error) (a : App) : App :=
  emit (ConsoleError label e) a.

(** Strings are the UTF-8 encodings of the page's strings.

    [String.prototype.trim] removes, at both ends, the white space and the
    line terminators of ECMAScript: U+0009 to U+000D, U+0020, U+00A0, U+1680,
    U+2000 to U+200A, U+2028, U+2029, U+202F, U+205F, U+3000 and U+FEFF, of
    one, two or three bytes each. *)
Definition white_space_1 (n : nat) : bool :=
  (((9 <=? n) && (n <=? 13)) || (n =? 32))%nat.

Definition white_space_2 (n1 n2 : nat) : bool :=
  ((n1 =? 194) && (n2 =? 160))%nat.                         (* U+00A0 *)

Definition white_space_3 (n1 n2 n3 : nat) : bool :=
  (((n1 =? 225) && (n2 =? 154) && (n3 =? 128))              (* U+1680 *)
   || ((n1 =? 226) && (n2 =? 128) &&
       (((128 <=? n3) && (n3 <=? 138))                      (* U+2000 to U+200A *)
        || (n3 =? 168) || (n3 =? 169) || (n3 =? 175)))      (* U+2028, U+2029, U+202F *)
   || ((n1 =? 226) && (n2 =? 129) && (n3 =? 159))           (* U+205F *)
   || ((n1 =? 227) && (n2 =? 128) && (n3 =? 128))           (* U+3000 *)
   || ((n1 =? 239) && (n2 =? 187) && (n3 =? 191)))%nat.     (* U+FEFF *)

(** The string without the white space it starts with; [backwards] for a
    string read from its end, where the bytes of a character come last
    first. *)
Fixpoint strip (backwards : bool) (s : string) : string :=
  match s with
  | String c1 s1 =>
      let n1 := nat_of_ascii c1 in
      if white_space_1 n1 then strip backwards s1
      else
        match s1 with
        | String c2 s2 =>
            let n2 := nat_of_ascii c2 in
            if (if backwards then white_space_2 n2 n1 else white_space_2 n1 n2)
            then strip backwards s2
            else
              match s2 with
              | String c3 s3 =>
                  let n3 := nat_of_ascii c3 in
                  if (if backwards then white_space_3 n3 n2 n1 else white_space_3 n1 n2 n3)
                  then strip backwards s3
                  else s
              | EmptyString => s
              end
        | EmptyString => s
        end
  | EmptyString => s
  end.

Definition trim (s : string) : string :=
  String.rev (strip true (String.rev (strip false s))).

(** [toLowerCase] on the letters A to Z.  The code compares its result with
    ASCII extensions only, none of which has a k or an i, the two ASCII
    letters that characters outside ASCII lower-case to; so this is all of
    [toLowerCase] that [getFileIcon] can see.  Then the array methods that
    [getFileIcon] uses. *)
Definition lower (c : ascii) : ascii :=
  let n := nat_of_ascii c in
  if ((65 <=? n) && (n <=? 90))%nat then ascii_of_nat (n + 32)%nat else c.

Fixpoint toLowerCase (s : string) : string :=
  match s with
  | String c s' => String (lower c) (toLowerCase s')
  | EmptyString => EmptyString
  end.

(** [s.split('.')]: the pieces between the dots, never an empty array. *)
Fixpoint split_dot (s : string) : list string :=
  match s with
  | EmptyString => [""]
  | String c s' =>
      if Ascii.eqb c "." then "" :: split_dot s'
      else match split_dot s' with
           | piece :: pieces => String c piece :: pieces
           | [] => [String c ""]
           end
  end.

(** [array.pop()]: the last element, [undefined] on an empty array. *)
Definition pop (l : list string) : option string := last l.

(** [array.includes(x)] *)
Definition includes (l : list string) (x : option string) : bool :=
  match x with
  | Some s => bool_decide (s ∈ l)
  | None => false
  end.

(** ** Suspended [async] code *)

(** What an [async] call is waiting for, with the code that runs when it
    settles.  That code gets the state of that later moment and returns the
    new state, the calls it started without awaiting them, and what it waits
    for next. *)
Inductive Async : Type :=
| Done
| Await_fetch (k : Outcome Response → App → App * list Async * Async)
| Await_json (response : Response) (k : Outcome Body → App → App * list Async * Async).

Definition Step : Type := App * list Async * Async.

(** [return] *)
Definition ret (a : App) : Step := (a, [], Done).

(** [await fetch(req)] followed by [k] *)
Definition await_fetch (req : Request) (a : App) (k : Outcome Response → App → Step) : Step :=
  (fetch req a, [], Await_fetch k).

(** [await response.json()] followed by [k] *)
Definition await_json (response : Response) (a : App) (k : Outcome Body → App → Step) : Step :=
  (a, [], Await_json response k).

(** [await t] followed by [f], for [t] the promise of another [async] method
    that has run up to state [a] and started [sp]. *)
Fixpoint andThen (t : Async) (f : App → Step) (a : App) (sp : list Async) : Step :=
  match t with
  | Done => let '(a', sp', t') := f a in (a', (sp ++ sp')%list, t')
  | Await_fetch k =>
      (a, sp, Await_fetch (λ o a1, let '(a2, sp2, t2) := k o a1 in andThen t2 f a2 sp2))
  | Await_json r k =>
      (a, sp, Await_json r (λ o a1, let '(a2, sp2, t2) := k o a1 in andThen t2 f a2 sp2))
  end.

(** ** The methods of [DocumentAIProcessor] *)

Module DocumentAIProcessor.

(** [showToast(message, type)]: the toast appended to the body.  Its removal
    three seconds later is not part of the model. *)
Definition showToast (message type : string) (a : App) : App :=
  emit (Toast message type) a.

Definition showLoadingOverlay (a : App) : App :=
  classList_remove_hidden "loadingOverlay" a.

Definition hideLoadingOverlay (a : App) : App :=
  classList_add_hidden "loadingOverlay" a.

Definition hideHistory (a : App) : App :=
  classList_add_hidden "historyModal" a.

(** [createFileItem(file)]: the item is a function of the file alone, and
    stands for itself in [fileList]. *)
Definition createFileItem (file : File) : File := file.

Definition getFileIcon (filename : string) : Icon :=
  let ext := pop (split_dot (toLowerCase filename)) in
  if includes ["pdf"] ext then
    {| icon_class := "fas fa-file-pdf"; icon_color := "pdf" |}
  else if includes ["docx"; "doc"] ext then
    {| icon_class := "fas fa-file-word"; icon_color := "docx" |}
  else if includes ["pptx"; "ppt"] ext then
    {| icon_class := "fas fa-file-powerpoint"; icon_color := "pptx" |}
  else if includes ["mp3"; "wav"; "m4a"; "flac"; "ogg"; "aac"] ext then
    {| icon_class := "fas fa-music"; icon_color := "audio" |}
  else
    {| icon_class := "fas fa-file"; icon_color := "text-gray-400" |}.

Definition handleFileSelection (files : list File) (a : App) : App :=
  if (length files =? 0)%nat then a
  else
    let a := set_fileList [] a in
    let a := classList_remove_hidden "fileList" a in
    let a := foldl (λ a file, set_fileList (fileList a ++ [createFileItem file]) a) a files in
    set_uploadBtn_disabled false a.

Definition getStatusClass (status : string) : string :=
  if String.eqb status "pending" then "pending"
  else if String.eqb status "processing" then "processing"
  else if String.eqb status "completed" then "completed"
  else if String.eqb status "failed" then "failed"
  else "pending".

Definition statusRow (file : FileRecord) : StatusRow :=
  {| row_filename := filename file;
     row_file_type := file_type file;
     row_class := getStatusClass (status file);
     row_status := status file |}.

(** What reading a property of [undefined] or of [null], and calling what
    is not a function, throw.  The text of the message is the engine's and
    the language does not fix it; the model takes these. *)
Definition TypeError (what : string) : Error :=
  {| message := what +:+ " is undefined" |}.
Definition NullError (what : string) : Error :=
  {| message := what +:+ " is null" |}.
Definition NotAFunction (what : string) : Error :=
  {| message := what +:+ " is not a function" |}.

(** [displayProcessingStatus(status)]; the second component is the exception
    thrown, if any. *)
Definition displayProcessingStatus (status : Body) (a : App) : App * option Error :=
  let a := set_processingStatus [] a in
  if is_null status then (a, Some (NullError "status"))
  else
    match get_files status with
    | None => (a, Some (TypeError "status.files"))
    | Some files =>
        (foldl (λ a file, set_processingStatus (processingStatus a ++ [statusRow file]) a) a files,
         None)
    end.

Definition showResultsSection (a : App) : App :=
  let a := classList_add_hidden "processingSection" a in
  classList_remove_hidden "resultsSection" a.

Definition stopStatusChecking (a : App) : App :=
  match statusCheckInterval a with
  | Some t =>
      let a := clearInterval t a in
      set_statusCheckInterval None a
  | None => a
  end.

Definition updateProcessingStatus (a : App) : Step :=
  if negb (truthy (currentSessionId a)) then ret a
  else
    let catch error a := ret (console_error "Status check error:" error a) in
    await_fetch (GET ("/status/" +:+ interpolate (currentSessionId a))) a (λ response a,
      match response with
      | Rejected error => catch error a
      | Resolved response =>
          if negb (ok response) then catch {| message := "Failed to get status" |} a
          else await_json response a (λ status a,
            match status with
            | Rejected error => catch error a
            | Resolved status =>
                match displayProcessingStatus status a with
                | (a, Some error) => catch error a
                | (a, None) =>
                    if bool_decide (get_status status = Some "completed") then
                      let a := showResultsSection a in
                      let a := stopStatusChecking a in
                      ret a
                    else ret a
                end
            end)
      end).

(** [showProcessingSection()]: the call of [updateProcessingStatus] is not
    awaited; what it waits for is handed back as started. *)
Definition showProcessingSection (a : App) : App * list Async :=
  let a := classList_add_hidden "uploadSection" a in
  let a := classList_remove_hidden "processingSection" a in
  let '(a, started, t) := updateProcessingStatus a in
  (a, (started ++ [t])%list).

(** Every interval set here calls [updateProcessingStatus] when it fires. *)
Definition startStatusChecking (a : App) : App :=
  let '(t, a) := setInterval 2000 a in
  set_statusCheckInterval (Some t) a.

Definition uploadFiles_catch (error : Error) (a : App) : App :=
  let a := console_error "Upload error:" error a in
  showToast ("Upload failed: " +:+ message error) "error" a.

Definition uploadFiles (a : App) : Step :=
  let files := fileInput_files a in
  if (length files =? 0)%nat then
    ret (showToast "Please select files to upload" "error" a)
  else
    let a := showLoadingOverlay a in
    let formData := (λ file, ("files", FormFile file)) <$> files in
    await_fetch (POST "/upload" formData) a (λ response a,
      match response with
      | Rejected error => ret (hideLoadingOverlay (uploadFiles_catch error a))
      | Resolved response =>
          if negb (ok response) then
            let error := {| message := "Upload failed: " +:+ statusText response |} in
            ret (hideLoadingOverlay (uploadFiles_catch error a))
          else await_json response a (λ result a,
            match result with
            | Rejected error => ret (hideLoadingOverlay (uploadFiles_catch error a))
            | Resolved result =>
                if is_null result then
                  ret (hideLoadingOverlay (uploadFiles_catch (NullError "result") a))
                else
                let a := set_currentSessionId (get_session_id result) a in
                let a := showToast "Files uploaded successfully!" "success" a in
                let '(a, started) := showProcessingSection a in
                let a := startStatusChecking a in
                let a := set_fileInput_files [] a in
                let a := classList_add_hidden "fileList" a in
                let a := set_uploadBtn_disabled true a in
                (hideLoadingOverlay a, started, Done)
            end)
      end).

(** [displaySummary(content)]; assigning [undefined] to [textContent] empties
    the element. *)
Definition displaySummary (content : option string) (a : App) : App :=
  let a := set_summaryContent (default "" content) a in
  classList_remove_hidden "summaryResult" a.

Definition generateSummary_catch (error : Error) (a : App) : App :=
  let a := console_error "Summary generation error:" error a in
  showToast "Failed to generate summary" "error" a.

Definition generateSummary (a : App) : Step :=
  if negb (truthy (currentSessionId a)) then ret a
  else
    let summaryType := get_value "summaryType" a in
    let a := showLoadingOverlay a in
    await_fetch
      (GET ("/summary/" +:+ interpolate (currentSessionId a) +:+ "?summary_type=" +:+ summaryType))
      a (λ response a,
      match response with
      | Rejected error => ret (hideLoadingOverlay (generateSummary_catch error a))
      | Resolved response =>
          if negb (ok response) then
            let error := {| message := "Failed to generate summary" |} in
            ret (hideLoadingOverlay (generateSummary_catch error a))
          else await_json response a (λ summary a,
            match summary with
            | Rejected error => ret (hideLoadingOverlay (generateSummary_catch error a))
            | Resolved summary =>
                if is_null summary then
                  ret (hideLoadingOverlay (generateSummary_catch (NullError "summary") a))
                else
                let a := displaySummary (get_content summary) a in
                ret (hideLoadingOverlay a)
            end)
      end).

(** [displayQuiz(questions)]; the second component is the exception thrown,
    if any. *)
Definition displayQuiz (questions : option (list Question)) (a : App) : App * option Error :=
  let a := set_quizContent [] a in
  match questions with
  | None => (a, Some (TypeError "questions"))
  | Some questions =>
      let a :=
        foldl (λ a '(index, question),
                 set_quizContent
                   (quizContent a ++ [{| item_index := index; item_question := question |}]) a)
              a (imap (λ index question, (index, question)) questions) in
      (classList_remove_hidden "quizResult" a, None)
  end.

Definition generateQuiz_catch (error : Error) (a : App) : App :=
  let a := console_error "Quiz generation error:" error a in
  showToast "Failed to generate quiz" "error" a.

Definition generateQuiz (a : App) : Step :=
  if negb (truthy (currentSessionId a)) then ret a
  else
    let questionCount := get_value "questionCount" a in
    let a := showLoadingOverlay a in
    await_fetch
      (GET ("/quiz/" +:+ interpolate (currentSessionId a) +:+ "?question_count=" +:+ questionCount))
      a (λ response a,
      match response with
      | Rejected error => ret (hideLoadingOverlay (generateQuiz_catch error a))
      | Resolved response =>
          if negb (ok response) then
            let error := {| message := "Failed to generate quiz" |} in
            ret (hideLoadingOverlay (generateQuiz_catch error a))
          else await_json response a (λ quiz a,
            match quiz with
            | Rejected error => ret (hideLoadingOverlay (generateQuiz_catch error a))
            | Resolved quiz =>
                if is_null quiz then
                  ret (hideLoadingOverlay (generateQuiz_catch (NullError "quiz") a))
                else
                match displayQuiz (get_questions quiz) a with
                | (a, Some error) => ret (hideLoadingOverlay (generateQuiz_catch error a))
                | (a, None) => ret (hideLoadingOverlay a)
                end
            end)
      end).

Definition saveSession_catch (error : Error) (a : App) : App :=
  let a := console_error "Save session error:" error a in
  showToast "Failed to save session" "error" a.

Definition saveSession (a : App) : Step :=
  if negb (truthy (currentSessionId a)) then ret a
  else
    let sessionName := trim (get_value "sessionName" a) in
    if negb (truthy (Some sessionName)) then
      ret (showToast "Please enter a session name" "error" a)
    else
      let formData := [("session_name", FormText sessionName)] in
      await_fetch (POST ("/save-session/" +:+ interpolate (currentSessionId a)) formData)
        a (λ response a,
        match response with
        | Rejected error => ret (saveSession_catch error a)
        | Resolved response =>
            if negb (ok response) then
              ret (saveSession_catch {| message := "Failed to save session" |} a)
            else
              let a := showToast "Session saved successfully!" "success" a in
              ret (put_value "sessionName" "" a)
        end).

(** [displayHistory(sessions)]; the second component is the exception
    thrown, if any: by reading the length of null, or by calling [forEach]
    on what is not an array. *)
Definition displayHistory (sessions : Body) (a : App) : App * option Error :=
  let a := set_historyList (SessionItems []) a in
  if is_null sessions then (a, Some (NullError "sessions"))
  else if length_is_0 sessions then (set_historyList NoSavedSessions a, None)
  else
    match get_array sessions with
    | None => (a, Some (NotAFunction "sessions.forEach"))
    | Some sessions =>
        (foldl (λ a session,
                  match historyList a with
                  | SessionItems items => set_historyList (SessionItems (items ++ [session])) a
                  | NoSavedSessions => set_historyList (SessionItems [session]) a
                  end) a sessions,
         None)
    end.

Definition showHistory_catch (error : Error) (a : App) : App :=
  let a := console_error "History load error:" error a in
  showToast "Failed to load history" "error" a.

Definition showHistory (a : App) : Step :=
  await_fetch (GET "/saved-sessions") a (λ response a,
    match response with
    | Rejected error => ret (showHistory_catch error a)
    | Resolved response =>
        if negb (ok response) then
          ret (showHistory_catch {| message := "Failed to load history" |} a)
        else await_json response a (λ sessions a,
          match sessions with
          | Rejected error => ret (showHistory_catch error a)
          | Resolved sessions =>
              match displayHistory sessions a with
              | (a, Some error) => ret (showHistory_catch error a)
              | (a, None) => ret (classList_remove_hidden "historyModal" a)
              end
          end)
    end).

(** The [try] block that ends [loadSession]. *)
Definition loadSession_check (sessionId : string) (a : App) : Step :=
  let catch error a := ret (console_error "Error loading session:" error a) in
  await_fetch (GET ("/status/" +:+ sessionId)) a (λ response a,
    match response with
    | Rejected error => catch error a
    | Resolved response =>
        if ok response then
          await_json response a (λ status a,
            match status with
            | Rejected error => catch error a
            | Resolved status =>
                if is_null status then catch (NullError "status") a
                else if bool_decide (get_status status = Some "completed") then
                  ret (showResultsSection a)
                else ret a
            end)
        else ret a
    end).

Definition loadSession (sessionId : string) (a : App) : Step :=
  let a := set_currentSessionId (Some sessionId) a in
  let a := hideHistory a in
  let '(a, started) := showProcessingSection a in
  let '(a, started', t) := updateProcessingStatus a in
  andThen t (loadSession_check sessionId) a (started ++ started')%list.

(** [new DocumentAIProcessor()] on a loaded page. *)
Definition constructor (page : App) : App :=
  let a := set_currentSessionId None page in
  set_statusCheckInterval None a.

End DocumentAIProcessor.

Import DocumentAIProcessor.

(** ** The handlers installed on [window] and [document] *)

(** [window.addEventListener('error', ...)]; [error] is [e.error]. *)
Definition on_error (error : Error) (a : App) : App :=
  let a := console_error "Global error:" error a in
  showToast "An unexpected error occurred" "error" a.

(** [document.addEventListener('visibilitychange', ...)] *)
Definition on_visibilitychange (a : App) : App :=
  if document_hidden a then stopStatusChecking a
  else if truthy (currentSessionId a)
          && bool_decide (classList_contains_hidden "processingSection" a = false)
       then startStatusChecking a
       else a.

(** ** The page as an event loop *)

(** The state between two handlers: the application, and every [async] call
    made so far, in the order they were made ([Done] once finished). *)
Record Sys := { app : App; calls : list Async }.

Inductive Event :=
| Change_fileInput (files : list File)   (* the user picks files *)
| Drop (files : list File)               (* the user drops files on the upload area *)
| Input (id : string) (v : string)       (* the user edits sessionName, summaryType, questionCount *)
| Submit_uploadForm
| Click_generateSummaryBtn
| Click_generateQuizBtn
| Click_saveSessionBtn
| Click_historyBtn
| Click_closeHistoryBtn
| Click_view (session_id : string)       (* onclick="app.loadSession('...')" *)
| Interval (t : positive)                (* the interval t fires *)
| Fetch_settles (i : nat) (o : Outcome Response)   (* the fetch awaited by call i settles *)
| Body_read (i : nat)                    (* the json() awaited by call i settles *)
| Visibilitychange (hidden : bool)
| Window_error (error : Error).            (* an error reaches the window *)

(** A handler that makes an [async] call. *)
Definition call (st : Step) (s : Sys) : Sys :=
  let '(a, started, t) := st in
  {| app := a; calls := (calls s ++ started ++ [t])%list |}.

(** A handler that makes none. *)
Definition run (a : App) (s : Sys) : Sys := {| app := a; calls := calls s |}.

(** Call [i] goes on. *)
Definition resume (i : nat) (st : Step) (s : Sys) : Sys :=
  let '(a, started, t) := st in
  {| app := a; calls := (<[ i := t ]> (calls s) ++ started)%list |}.

Definition handle (s : Sys) (e : Event) : Sys :=
  let a := app s in
  match e with
  | Change_fileInput files => run (handleFileSelection files (set_fileInput_files files a)) s
  | Drop files => run (handleFileSelection files a) s
  | Input id v => run (put_value id v a) s
  | Submit_uploadForm => call (uploadFiles a) s
  | Click_generateSummaryBtn => call (generateSummary a) s
  | Click_generateQuizBtn => call (generateQuiz a) s
  | Click_saveSessionBtn => call (saveSession a) s
  | Click_historyBtn => call (showHistory a) s
  | Click_closeHistoryBtn => run (hideHistory a) s
  | Click_view session_id => call (loadSession session_id a) s
  | Interval t =>
      if bool_decide (t ∈ timers a) then call (updateProcessingStatus a) s else s
  | Fetch_settles i o =>
      match calls s !! i with
      | Some (Await_fetch k) => resume i (k o a) s
      | _ => s
      end
  | Body_read i =>
      match calls s !! i with
      | Some (Await_json response k) => resume i (k (json response) a) s
      | _ => s
      end
  | Visibilitychange h => run (on_visibilitychange (set_document_hidden h a)) s
  | Window_error error => run (on_error error a) s
  end.

Definition handle_all (s : Sys) (es : list Event) : Sys := foldl handle s es.

(** ** Phases *)

Inductive Phase := Upload | Processing | Results.

(** The phase on display: the one section of the three that is not hidden. *)
Definition phase (a : App) : option Phase :=
  match classList_contains_hidden "uploadSection" a,
        classList_contains_hidden "processingSection" a,
        classList_contains_hidden "resultsSection" a with
  | false, true, true => Some Upload
  | true, false, true => Some Processing
  | true, true, false => Some Results
  | _, _, _ => None
  end.

(** Modelled from the spec: templates/index.html is not among the sources.
    The page before any handler has run, in the spec's initial Upload phase:
    only the upload section is displayed, nothing is selected or rendered. *)
Definition page : App :=
  {| currentSessionId := None;
     statusCheckInterval := None;
     hidden := {[ "processingSection"; "resultsSection"; "historyModal"; "loadingOverlay";
                  "fileList"; "summaryResult"; "quizResult" ]};
     value := ∅;
     fileInput_files := [];
     uploadBtn_disabled := true;
     fileList := [];
     processingStatus := [];
     summaryContent := "";
     quizContent := [];
     historyList := SessionItems [];
     document_hidden := false;
     timers := [];
     next_timer := 1%positive;
     log := [] |}.

(** [const app = new DocumentAIProcessor()] *)
Definition boot : Sys := {| app := constructor page; calls := [] |}.

(** ** Observing a call *)

(** What was asked of the browser between state [a] and the later [a']. *)
Definition since (a a' : App) : list Effect := drop (length (log a)) (log a').

Definition requests (es : list Effect) : list Request :=
  omap (λ e, match e with Fetch req => Some req | _ => None end) es.

Definition toasts (es : list Effect) : list (string * string) :=
  omap (λ e, match e with Toast m type => Some (m, type) | _ => None end) es.

Definition error_toasts (es : list Effect) : list string :=
  omap (λ e, match e with
             | Toast m type => if String.eqb type "error" then Some m else None
             | _ => None
             end) es.

Definition intervals_set (es : list Effect) : list positive :=
  omap (λ e, match e with SetInterval t _ => Some t | _ => None end) es.

Definition intervals_cleared (es : list Effect) : list positive :=
  omap (λ e, match e with ClearInterval t => Some t | _ => None end) es.

(** The state a call leaves when it returns or suspends. *)
Definition state (st : Step) : App := st.1.1.

(** A call that neither waits nor has started another call. *)
Definition returned (st : Step) : Prop := st.1.2 = [] ∧ st.2 = Done.

(** The fetch a call waits for settles with [o] when the state is [a]; this
    is what [handle] runs on [Fetch_settles]. *)
Definition on_fetch (st : Step) (o : Outcome Response) (a : App) : Step :=
  match st.2 with
  | Await_fetch k => k o a
  | _ => ret a
  end.

(** The [json()] a call waits for settles when the state is [a]; this is
    what [handle] runs on [Body_read]. *)
Definition on_json (st : Step) (a : App) : Step :=
  match st.2 with
  | Await_json response k => k (json response) a
  | _ => ret a
  end.

(** A fetch that ends in a transport failure or a response that is not 2xx. *)
Definition failed (o : Outcome Response) : bool :=
  match o with
  | Rejected _ => true
  | Resolved response => negb (ok response)
  end.

(** A 2xx response whose body reads as [b]. *)
Definition answers (response : Response) (b : Body) : Prop :=
  ok response = true ∧ json response = Resolved b.

(** The three sections of [a'] are displayed as those of [a]. *)
Definition same_sections (a a' : App) : Prop :=
  ∀ id, id ∈ ["uploadSection"; "processingSection"; "resultsSection"] →
        (id ∈ hidden a' ↔ id ∈ hidden a).

(** The summary and the quiz on display. *)
Definition results_display (a : App) : string * bool * list QuizItem * bool :=
  (summaryContent a, classList_contains_hidden "summaryResult" a,
   quizContent a, classList_contains_hidden "quizResult" a).

(** [P a a'] holds of every piece of code a suspended call may still run,
    from the state [a] it finds to the state [a'] it leaves. *)
Inductive Always (P : App → App → Prop) : Async → Prop :=
| Always_Done : Always P Done
| Always_fetch k :
    (∀ o a, P a (k o a).1.1) →
    (∀ o a, Forall (Always P) (k o a).1.2) →
    (∀ o a, Always P (k o a).2) →
    Always P (Await_fetch k)
| Always_json response k :
    (∀ o a, P a (k o a).1.1) →
    (∀ o a, Forall (Always P) (k o a).1.2) →
    (∀ o a, Always P (k o a).2) →
    Always P (Await_json response k).

(** The same of a call from its start in state [a]. *)
Definition Throughout (P : App → App → Prop) (a : App) (st : Step) : Prop :=
  P a st.1.1 ∧ Forall (Always P) st.1.2 ∧ Always P st.2.

Definition keeps_session (a a' : App) : Prop :=
  currentSessionId a' = currentSessionId a.

(** From [a] to [a'] no [setInterval] was called and no timer was added. *)
Definition sets_no_interval (a a' : App) : Prop :=
  ∃ es, log a' = (log a ++ es)%list ∧ intervals_set es = [] ∧
        ∀ t, t ∈ timers a' → t ∈ timers a.

(** From [a] to [a'] nothing has changed but the log and whether the
    loading overlay is hidden. *)
Definition only_overlay_and_log (a a' : App) : Prop :=
  set_hidden (hidden a) (set_log (log a) a') = a ∧
  ∀ id, id ≠ "loadingOverlay" → (id ∈ hidden a' ↔ id ∈ hidden a).

(** A call that ends by reporting [msg] in an error toast and leaves the
    summary and the quiz on display, and all but the log and the overlay, as
    they were in [a]. *)
Definition quiet_failure (msg : string) (a : App) (st : Step) : Prop :=
  returned st ∧
  error_toasts (since a (state st)) = [msg] ∧
  results_display (state st) = results_display a ∧
  only_overlay_and_log a (state st).

(** The row [row] of the status list is the one of [file]: its name, its
    type, its status, and the badge class of that status. *)
Definition shows_row (row : StatusRow) (file : FileRecord) : Prop :=
  row_filename row = filename file ∧
  row_file_type row = file_type file ∧
  row_status row = status file ∧
  row_class row
  = (if bool_decide (status file ∈ ["pending"; "processing"; "completed"; "failed"])
     then status file else "pending").

(** Everything that can run: the methods, and the two handlers. *)
Inductive Code :=
| HandleFileSelection (files : list File)
| UploadFiles
| ShowProcessingSection
| UpdateProcessingStatus
| DisplayProcessingStatus (status : Body)
| StartStatusChecking
| StopStatusChecking
| ShowResultsSection
| GenerateSummary
| GenerateQuiz
| SaveSession
| ShowHistory
| HideHistory
| LoadSession (sessionId : string)
| ShowLoadingOverlay
| HideLoadingOverlay
| ShowToast (message type : string)
| OnError (error : Error)
| OnVisibilitychange.

Definition exec (c : Code) (a : App) : Step :=
  match c with
  | HandleFileSelection files => ret (handleFileSelection files a)
  | UploadFiles => uploadFiles a
  | ShowProcessingSection => let '(a, started) := showProcessingSection a in (a, started, Done)
  | UpdateProcessingStatus => updateProcessingStatus a
  | DisplayProcessingStatus status => ret (displayProcessingStatus status a).1
  | StartStatusChecking => ret (startStatusChecking a)
  | StopStatusChecking => ret (stopStatusChecking a)
  | ShowResultsSection => ret (showResultsSection a)
  | GenerateSummary => generateSummary a
  | GenerateQuiz => generateQuiz a
  | SaveSession => saveSession a
  | ShowHistory => showHistory a
  | HideHistory => ret (hideHistory a)
  | LoadSession sessionId => loadSession sessionId a
  | ShowLoadingOverlay => ret (showLoadingOverlay a)
  | HideLoadingOverlay => ret (hideLoadingOverlay a)
  | ShowToast message type => ret (showToast message type a)
  | OnError error => ret (on_error error a)
  | OnVisibilitychange => ret (on_visibilitychange a)
  end.

(** The two methods with an assignment to [this.currentSessionId]. *)
Definition assigns_session (c : Code) : bool :=
  match c with
  | UploadFiles | LoadSession _ => true
  | _ => false
  end.

(** An upload that ends by reporting a failure and commits nothing, nothing
    but the log and the overlay being changed: seen from the state [a] in
    which the failure is handled. *)
Definition upload_reported_failed (a : App) (st : Step) : Prop :=
  returned st ∧
  (∃ m, error_toasts (since a (state st)) = ["Upload failed: " +:+ m]) ∧
  requests (since a (state st)) = [] ∧
  intervals_set (since a (state st)) = [] ∧
  currentSessionId (state st) = currentSessionId a ∧
  statusCheckInterval (state st) = statusCheckInterval a ∧
  timers (state st) = timers a ∧
  phase (state st) = phase a ∧
  only_overlay_and_log a (state st).

(** ** Scenarios *)

Definition doc_pdf : File := {| name := "doc.pdf"; size := 1024 |}.

Definition ok_response (b : Body) : Response :=
  {| ok := true; statusText := "OK"; json := Resolved b |}.

Definition server_error : Response :=
  {| ok := false; statusText := "Internal Server Error"; json := Resolved OtherBody |}.

(** A status answer about one file, the file in the aggregate status. *)
Definition status_of (s : string) (file type : string) : Body :=
  StatusBody s [ {| filename := file; file_type := type; status := s |} ].

(** One file picked, not yet submitted. *)
Definition selected : App := app (handle_all boot [Change_fileInput [doc_pdf]]).

(** One upload, answered with session s1. *)
Definition uploaded : list Event :=
  [ Change_fileInput [doc_pdf];
    Submit_uploadForm;                                      (* call 0 *)
    Fetch_settles 0 (Resolved (ok_response (UploadBody "s1")));
    Body_read 0 ].                                          (* starts call 1, interval 1 *)

Definition processing : App := app (handle_all boot uploaded).

(** Two submits before the first upload is answered. *)
Definition double_submit : list Event :=
  [ Change_fileInput [doc_pdf];
    Submit_uploadForm;                                      (* call 0 *)
    Submit_uploadForm;                                      (* call 1 *)
    Fetch_settles 0 (Resolved (ok_response (UploadBody "s1")));
    Body_read 0;                                            (* starts call 2, interval 1 *)
    Fetch_settles 1 (Resolved (ok_response (UploadBody "s2")));
    Body_read 1 ].                                          (* starts call 3, interval 2 *)

(** Interval 2 fires and its request is answered with completed. *)
Definition poll_completed : list Event :=
  [ Interval 2;                                             (* call 4 *)
    Fetch_settles 4 (Resolved (ok_response (status_of "completed" "doc.pdf" "pdf")));
    Body_read 4 ].


(** An upload answered with s1, then the saved session s2 loaded while the
    first status request for s1 is still in flight; s2's status arrives. *)
Definition upload_then_load : list Event :=
  uploaded ++
  [ Click_view "s2";                                        (* calls 2 and 3 *)
    Fetch_settles 2 (Resolved (ok_response (status_of "processing" "notes.docx" "docx")));
    Body_read 2 ].

(** The answer to the request made for s1 arrives at last. *)
Definition stale_answer : list Event :=
  [ Fetch_settles 1 (Resolved (ok_response (status_of "completed" "doc.pdf" "pdf")));
    Body_read 1 ].

(** A saved session is viewed on the fresh page and is still processing:
    its three status requests are answered with processing. *)
Definition view_unfinished : list Event :=
  [ Click_historyBtn;                                       (* call 0 *)
    Click_view "s2";                                        (* calls 1 and 2 *)
    Fetch_settles 1 (Resolved (ok_response (status_of "processing" "notes.docx" "docx")));
    Body_read 1;
    Fetch_settles 2 (Resolved (ok_response (status_of "processing" "notes.docx" "docx")));
    Body_read 2;
    Fetch_settles 2 (Resolved (ok_response (status_of "processing" "notes.docx" "docx")));
    Body_read 2 ].

(** The session s1 with a name typed in. *)
Definition named : App := put_value "sessionName" "  week 3 " processing.

(** The string of the given UTF-8 bytes. *)
Definition utf8 (bytes : list nat) : string :=
  string_of_list_ascii (ascii_of_nat <$> bytes).

(** The session s1 with a name typed in that is all white space: a no-break
    space, a space, an ideographic space and a tab. *)
Definition blank_name : App :=
  put_value "sessionName" (utf8 [194; 160; 32; 227; 128; 128; 9]) processing.

(** The whole way: files are picked and submitted, the upload is answered
    with the session sid, the first status answer reports s, the interval
    fires once and the second status answer reports completed. *)
Definition upload_to_results (files : list File) (sid s : string)
    (rows rows' : list FileRecord) : list Event :=
  [ Change_fileInput files;
    Submit_uploadForm;                                      (* call 0 *)
    Fetch_settles 0 (Resolved (ok_response (UploadBody sid)));
    Body_read 0;                                            (* starts call 1, interval 1 *)
    Fetch_settles 1 (Resolved (ok_response (StatusBody s rows)));
    Body_read 1;
    Interval 1;                                             (* call 2 *)
    Fetch_settles 2 (Resolved (ok_response (StatusBody "completed" rows')));
    Body_read 2 ].

(** The saved session s2 is viewed from the Results phase of s1 and is still
    processing: its three status requests are answered with processing. *)
Definition in_results : Sys :=
  handle_all boot
    (upload_to_results [doc_pdf] "s1" "processing"
       [ {| filename := "doc.pdf"; file_type := "pdf"; status := "processing" |} ]
       [ {| filename := "doc.pdf"; file_type := "pdf"; status := "completed" |} ]).

Definition view_from_results : list Event :=
  [ Click_view "s2";                                        (* calls 3 and 4 *)
    Fetch_settles 3 (Resolved (ok_response (status_of "processing" "notes.docx" "docx")));
    Body_read 3;
    Fetch_settles 4 (Resolved (ok_response (status_of "processing" "notes.docx" "docx")));
    Body_read 4;
    Fetch_settles 4 (Resolved (ok_response (status_of "processing" "notes.docx" "docx")));
    Body_read 4 ].

(** ** Observing the page *)

(** The loading overlay is shown when [call] sends its request, and hidden
    when [call] ends, at its fetch or, if the fetch succeeds, at its body. *)
Definition overlay_until_done (call : Step) : Prop :=
  classList_contains_hidden "loadingOverlay" (state call) = false ∧
  ∀ o a a2,
    let st := on_fetch call o a in
    match st.2 with
    | Done => classList_contains_hidden "loadingOverlay" (state st) = true
    | _ =>
        state st = a ∧
        (on_json st a2).2 = Done ∧
        classList_contains_hidden "loadingOverlay" (state (on_json st a2)) = true
    end.

(** [I] survives the step from [a] to [a']. *)
Definition preserves (I : App → Prop) (a a' : App) : Prop := I a → I a'.

(** All that the suspended calls of [s] may still run satisfies [P]. *)
Definition pending (P : App → App → Prop) (s : Sys) : Prop := Forall (Always P) (calls s).

(** What the browser does to the page before the handler of [e] runs. *)
Definition before (e : Event) (a : App) : App :=
  match e with
  | Change_fileInput files => set_fileInput_files files a
  | Input id v => put_value id v a
  | Visibilitychange h => set_document_hidden h a
  | _ => a
  end.

(** The code that [handle] runs at once on [e]. *)
Definition handler (e : Event) : option Code :=
  match e with
  | Change_fileInput files | Drop files => Some (HandleFileSelection files)
  | Submit_uploadForm => Some UploadFiles
  | Click_generateSummaryBtn => Some GenerateSummary
  | Click_generateQuizBtn => Some GenerateQuiz
  | Click_saveSessionBtn => Some SaveSession
  | Click_historyBtn => Some ShowHistory
  | Click_closeHistoryBtn => Some HideHistory
  | Click_view session_id => Some (LoadSession session_id)
  | Interval _ => Some UpdateProcessingStatus
  | Visibilitychange _ => Some OnVisibilitychange
  | Window_error error => Some (OnError error)
  | Input _ _ | Fetch_settles _ _ | Body_read _ => None
  end.

(** The timers as the code sees them. *)
Definition timer_state (a : App) : option positive * list positive * positive :=
  (statusCheckInterval a, timers a, next_timer a).

(** The recorded handle is an active interval, no handle is active twice,
    and the handles to come are not in use. *)
Definition timers_sound (a : App) : Prop :=
  (∀ t, statusCheckInterval a = Some t → t ∈ timers a) ∧
  NoDup (timers a) ∧
  ∀ t, t ∈ timers a → (t < next_timer a)%positive.

(** No interval is active or recorded. *)
Definition no_poll (a : App) : Prop := statusCheckInterval a = None ∧ timers a = [].

(** The events whose handlers can start the poll. *)
Definition starts_poll (e : Event) : bool :=
  match e with
  | Submit_uploadForm | Visibilitychange _ => true
  | _ => false
  end.

(** The events whose handlers can set a session. *)
Definition starts_session (e : Event) : bool :=
  match e with
  | Submit_uploadForm | Click_view _ => true
  | _ => false
  end.

(** No session, no poll, the Upload phase, and no request but for the list
    of saved sessions. *)
Definition no_session_yet (a : App) : Prop :=
  currentSessionId a = None ∧
  statusCheckInterval a = None ∧
  timers a = [] ∧
  phase a = Some Upload ∧
  ∀ req, req ∈ requests (log a) → req = GET "/saved-sessions".

(** * Properties *)

Set Warnings "-clear-no-such-hyp".
Local Arguments truthy : simpl never.

(** ** The log *)

Lemma since_app a a' es : log a' = (log a ++ es)%list → since a a' = es.
Proof. intros E. unfold since. rewrite E. apply drop_app_length. Qed.

Lemma since_same_log a a' : log a' = log a → since a a' = [].
Proof. intros E. apply since_app. by rewrite app_nil_r. Qed.

Lemma toasts_since a a' es :
  log a' = (log a ++ es)%list → toasts es = [] → toasts (since a a') = [].
Proof. intros E H. by rewrite (since_app a a' es). Qed.

(** ** Truthiness *)

Lemma truthy_Some s : truthy (Some s) = true ↔ s ≠ "".
Proof.
  unfold truthy. rewrite negb_true_iff. split.
  - intros H ->. by rewrite String.eqb_refl in H.
  - intros H. by apply String.eqb_neq.
Qed.

Lemma truthy_Some_false s : truthy (Some s) = false ↔ s = "".
Proof. unfold truthy. rewrite negb_false_iff. apply String.eqb_eq. Qed.

(** ** The [forEach] loops *)

Lemma App_eta a :
  mkApp (currentSessionId a) (statusCheckInterval a) (hidden a) (value a) (fileInput_files a)
    (uploadBtn_disabled a) (fileList a) (processingStatus a) (summaryContent a)
    (quizContent a) (historyList a) (document_hidden a) (timers a) (next_timer a) (log a) = a.
Proof. by destruct a. Qed.

Lemma foldl_fileList (f : File → File) files a :
  foldl (λ a file, set_fileList (fileList a ++ [f file]) a) a files
  = set_fileList (fileList a ++ (f <$> files)) a.
Proof.
  revert a. induction files as [|x files IH]; intros a; simpl.
  - rewrite app_nil_r. symmetry. apply App_eta.
  - rewrite IH. unfold set_fileList. simpl. by rewrite <- app_assoc.
Qed.

Lemma foldl_processingStatus (f : FileRecord → StatusRow) files a :
  foldl (λ a file, set_processingStatus (processingStatus a ++ [f file]) a) a files
  = set_processingStatus (processingStatus a ++ (f <$> files)) a.
Proof.
  revert a. induction files as [|x files IH]; intros a; simpl.
  - rewrite app_nil_r. symmetry. apply App_eta.
  - rewrite IH. unfold set_processingStatus. simpl. by rewrite <- app_assoc.
Qed.

Lemma foldl_quizContent (l : list (nat * Question)) a :
  foldl (λ a '(index, question),
           set_quizContent
             (quizContent a ++ [{| item_index := index; item_question := question |}]) a) a l
  = set_quizContent
      (quizContent a ++ ((λ '(index, question),
                            {| item_index := index; item_question := question |}) <$> l)) a.
Proof.
  revert a. induction l as [|[i q] l IH]; intros a; simpl.
  - rewrite app_nil_r. symmetry. apply App_eta.
  - rewrite IH. unfold set_quizContent. simpl. by rewrite <- app_assoc.
Qed.

Lemma foldl_historyList sessions items a :
  historyList a = SessionItems items →
  foldl (λ a session,
           match historyList a with
           | SessionItems items => set_historyList (SessionItems (items ++ [session])) a
           | NoSavedSessions => set_historyList (SessionItems [session]) a
           end) a sessions
  = set_historyList (SessionItems (items ++ sessions)) a.
Proof.
  revert items a. induction sessions as [|x sessions IH]; intros items a E; simpl.
  - rewrite app_nil_r, <- E. symmetry. apply App_eta.
  - rewrite E. rewrite (IH (items ++ [x])%list) by done.
    unfold set_historyList. simpl. by rewrite <- app_assoc.
Qed.

Lemma displayProcessingStatus_files s files a :
  displayProcessingStatus (StatusBody s files) a
  = (set_processingStatus (statusRow <$> files) a, None).
Proof.
  unfold displayProcessingStatus. simpl. by rewrite foldl_processingStatus.
Qed.

Lemma statusRow_shows files : Forall2 shows_row (statusRow <$> files) files.
Proof.
  induction files as [|file files IH]; constructor; [|done].
  unfold shows_row, statusRow, getStatusClass. simpl. split_and!; [done..|].
  destruct (String.eqb_spec (status file) "pending") as [->|H1]; [done|].
  destruct (String.eqb_spec (status file) "processing") as [->|H2]; [done|].
  destruct (String.eqb_spec (status file) "completed") as [->|H3]; [done|].
  destruct (String.eqb_spec (status file) "failed") as [->|H4]; [done|].
  rewrite bool_decide_eq_false_2; [done|]. set_solver.
Qed.

Lemma displayQuiz_questions questions a :
  displayQuiz (Some questions) a
  = (classList_remove_hidden "quizResult"
       (set_quizContent
          (imap (λ index question, {| item_index := index; item_question := question |})
                questions) a), None).
Proof.
  unfold displayQuiz. rewrite foldl_quizContent. simpl.
  by rewrite fmap_imap.
Qed.

(** ** Sections and phases *)

Ltac hid :=
  unfold classList_contains_hidden, hideLoadingOverlay, showLoadingOverlay, hideHistory,
    showResultsSection, classList_add_hidden, classList_remove_hidden; simpl.

Lemma contains_true id a : classList_contains_hidden id a = true ↔ id ∈ hidden a.
Proof. apply bool_decide_eq_true. Qed.

Lemma contains_false id a : classList_contains_hidden id a = false ↔ id ∉ hidden a.
Proof. apply bool_decide_eq_false. Qed.

Lemma same_sections_phase a a' : same_sections a a' → phase a' = phase a.
Proof.
  intros H. unfold phase, classList_contains_hidden.
  assert (E : ∀ id, id ∈ ["uploadSection"; "processingSection"; "resultsSection"] →
               bool_decide (id ∈ hidden a') = bool_decide (id ∈ hidden a))
    by (intros id Hid; apply bool_decide_ext, H, Hid).
  rewrite !E by (clear; set_solver). done.
Qed.

Lemma hideLoadingOverlay_sections a a' :
  same_sections a a' → same_sections a (hideLoadingOverlay a').
Proof. intros H id Hid. rewrite <- (H id Hid). hid. set_solver. Qed.

Lemma phase_Processing a :
  phase a = Some Processing ↔
  "uploadSection" ∈ hidden a ∧ ("processingSection" ∉ hidden a) ∧ "resultsSection" ∈ hidden a.
Proof.
  unfold phase, classList_contains_hidden.
  repeat case_bool_decide; naive_solver.
Qed.

Lemma phase_Results a :
  phase a = Some Results ↔
  "uploadSection" ∈ hidden a ∧ "processingSection" ∈ hidden a ∧ ("resultsSection" ∉ hidden a).
Proof.
  unfold phase, classList_contains_hidden.
  repeat case_bool_decide; naive_solver.
Qed.

Lemma showResultsSection_hidden a :
  hidden (showResultsSection a) = ({[ "processingSection" ]} ∪ hidden a) ∖ {[ "resultsSection" ]}.
Proof. done. Qed.

Lemma results_display_frame a a' :
  summaryContent a' = summaryContent a → quizContent a' = quizContent a →
  (∀ id, id ∈ ["summaryResult"; "quizResult"] → (id ∈ hidden a' ↔ id ∈ hidden a)) →
  results_display a' = results_display a.
Proof.
  intros Es Eq H. unfold results_display, classList_contains_hidden. rewrite Es, Eq.
  assert (E : ∀ id, id ∈ ["summaryResult"; "quizResult"] →
               bool_decide (id ∈ hidden a') = bool_decide (id ∈ hidden a))
    by (intros id Hid; apply bool_decide_ext, H, Hid).
  rewrite !E by (clear; set_solver). done.
Qed.

(** ** Returning *)

Lemma returned_ret a : returned (ret a).
Proof. by split. Qed.

Lemma Throughout_ret P a a' : P a a' → Throughout P a (ret a').
Proof. intros H. split_and!; [done|constructor..]. Qed.

Lemma Always_fetch' P k :
  (∀ o a, Throughout P a (k o a)) → Always P (Await_fetch k).
Proof. intros H. constructor; intros o a; apply H. Qed.

Lemma Always_json' P response k :
  (∀ o a, Throughout P a (k o a)) → Always P (Await_json response k).
Proof. intros H. constructor; intros o a; apply H. Qed.

Ltac always :=
  first [ apply Always_Done | apply List.Forall_nil | apply Always_fetch' | apply Always_json' ];
  unfold Throughout.

(** ** The status poll *)

Lemma stopStatusChecking_spec a :
  currentSessionId (stopStatusChecking a) = currentSessionId a ∧
  hidden (stopStatusChecking a) = hidden a ∧
  processingStatus (stopStatusChecking a) = processingStatus a ∧
  statusCheckInterval (stopStatusChecking a) = None ∧
  match statusCheckInterval a with
  | Some t =>
      log (stopStatusChecking a) = (log a ++ [ClearInterval t])%list ∧
      timers (stopStatusChecking a) = filter (λ x, x ≠ t) (timers a)
  | None =>
      log (stopStatusChecking a) = log a ∧
      timers (stopStatusChecking a) = timers a
  end.
Proof.
  unfold stopStatusChecking. destruct (statusCheckInterval a) eqn:E; simpl; by rewrite ?E.
Qed.

Lemma stopStatusChecking_session a :
  currentSessionId (stopStatusChecking a) = currentSessionId a.
Proof. apply stopStatusChecking_spec. Qed.

(** The state once the status body [StatusBody s files] has been handled. *)
Lemma status_handled a0 response s files a a2 :
  truthy (currentSessionId a0) = true →
  answers response (StatusBody s files) →
  let st := on_fetch (updateProcessingStatus a0) (Resolved response) a in
  state st = a ∧
  on_json st a2
  = ret (if bool_decide (s = "completed")
         then stopStatusChecking (showResultsSection (set_processingStatus (statusRow <$> files) a2))
         else set_processingStatus (statusRow <$> files) a2).
Proof.
  intros Hs [Hok Hj]. unfold updateProcessingStatus. rewrite Hs. simpl.
  unfold on_fetch; simpl. rewrite Hok; simpl. split; [done|].
  unfold on_json; simpl. rewrite Hj.
  rewrite displayProcessingStatus_files. simpl.
  destruct (decide (s = "completed")) as [->|Hne].
  - by rewrite !bool_decide_eq_true_2.
  - rewrite !bool_decide_eq_false_2; [done..|]. congruence.
Qed.

(** ** What the [catch] blocks leave *)

Lemma only_overlay_and_log_trans a b c :
  only_overlay_and_log a b → only_overlay_and_log b c → only_overlay_and_log a c.
Proof.
  destruct a, b, c. unfold only_overlay_and_log, set_hidden, set_log. simpl.
  intros [E1 H1] [E2 H2]. split.
  - injection E1. injection E2. intros. by subst.
  - intros id Hid. by rewrite (H2 id Hid), (H1 id Hid).
Qed.

Ltac overlay_and_log :=
  match goal with
  | |- only_overlay_and_log ?a _ =>
      destruct a; split; [reflexivity|intros ? ?; hid; set_solver]
  end.

Lemma uploadFiles_catch_spec error a :
  upload_reported_failed a (ret (hideLoadingOverlay (uploadFiles_catch error a))).
Proof.
  unfold upload_reported_failed, state. simpl.
  rewrite (since_app a _ [ConsoleError "Upload error:" error;
                          Toast ("Upload failed: " +:+ message error) "error"]).
  - split_and!; eauto using returned_ret.
    + apply same_sections_phase, hideLoadingOverlay_sections. by intros ? _.
    + overlay_and_log.
  - simpl. by rewrite <- app_assoc.
Qed.

Lemma generateSummary_catch_spec error a :
  quiet_failure "Failed to generate summary" a
    (ret (hideLoadingOverlay (generateSummary_catch error a))).
Proof.
  unfold quiet_failure, state. simpl.
  rewrite (since_app a _ [ConsoleError "Summary generation error:" error;
                          Toast "Failed to generate summary" "error"]).
  - split_and!; auto using returned_ret.
    + apply results_display_frame; try done. intros id Hid. hid. set_solver.
    + overlay_and_log.
  - simpl. by rewrite <- app_assoc.
Qed.

Lemma generateQuiz_catch_spec error a :
  quiet_failure "Failed to generate quiz" a
    (ret (hideLoadingOverlay (generateQuiz_catch error a))).
Proof.
  unfold quiet_failure, state. simpl.
  rewrite (since_app a _ [ConsoleError "Quiz generation error:" error;
                          Toast "Failed to generate quiz" "error"]).
  - split_and!; auto using returned_ret.
    + apply results_display_frame; try done. intros id Hid. hid. set_solver.
    + overlay_and_log.
  - simpl. by rewrite <- app_assoc.
Qed.

(** ** Code that leaves [currentSessionId] alone *)

Lemma displayProcessingStatus_session status a :
  currentSessionId (displayProcessingStatus status a).1 = currentSessionId a.
Proof.
  unfold displayProcessingStatus. destruct (is_null status); [done|].
  destruct (get_files status); simpl; [|done].
  by rewrite foldl_processingStatus.
Qed.

Lemma displayQuiz_session questions a :
  currentSessionId (displayQuiz questions a).1 = currentSessionId a.
Proof.
  destruct questions; [|done]. by rewrite displayQuiz_questions.
Qed.

Lemma displayHistory_session sessions a :
  currentSessionId (displayHistory sessions a).1 = currentSessionId a.
Proof.
  unfold displayHistory. destruct (is_null sessions); [done|].
  destruct (length_is_0 sessions); [done|].
  destruct (get_array sessions) as [l|]; simpl; [|done].
  by rewrite (foldl_historyList _ []).
Qed.

Lemma handleFileSelection_session files a :
  currentSessionId (handleFileSelection files a) = currentSessionId a.
Proof.
  unfold handleFileSelection. destruct (length files =? 0)%nat; [done|].
  by rewrite foldl_fileList.
Qed.

Lemma updateProcessingStatus_keeps a :
  Throughout keeps_session a (updateProcessingStatus a).
Proof.
  unfold Throughout, keeps_session, updateProcessingStatus.
  destruct (truthy (currentSessionId a)); simpl; split_and!; try done; try always.
  intros [r|e] a1; simpl; [destruct (ok r); simpl|]; split_and!; try done; try always.
  intros [status|e] a2; simpl.
  - pose proof (displayProcessingStatus_session status a2) as Hd.
    destruct (displayProcessingStatus status a2) as [a3 [err|]]; simpl in *.
    + split_and!; try done; always.
    + case_bool_decide; simpl; split_and!; try done; try always.
      by rewrite stopStatusChecking_session.
  - split_and!; try done; always.
Qed.

Lemma generateSummary_keeps a : Throughout keeps_session a (generateSummary a).
Proof.
  unfold Throughout, keeps_session, generateSummary.
  destruct (truthy (currentSessionId a)); simpl; split_and!; try done; try always.
  intros [r|e] a1; simpl; [destruct (ok r); simpl|]; split_and!; try done; try always.
  intros [summary|e] a2; simpl; [destruct (is_null summary)|]; simpl;
    split_and!; try done; always.
Qed.

Lemma generateQuiz_keeps a : Throughout keeps_session a (generateQuiz a).
Proof.
  unfold Throughout, keeps_session, generateQuiz.
  destruct (truthy (currentSessionId a)); simpl; split_and!; try done; try always.
  intros [r|e] a1; simpl; [destruct (ok r); simpl|]; split_and!; try done; try always.
  intros [quiz|e] a2; simpl.
  - destruct (is_null quiz); simpl; [split_and!; try done; always|].
    pose proof (displayQuiz_session (get_questions quiz) a2) as Hd.
    destruct (displayQuiz (get_questions quiz) a2) as [a3 [err|]]; simpl in *;
      split_and!; try done; always.
  - split_and!; try done; always.
Qed.

Lemma saveSession_keeps a : Throughout keeps_session a (saveSession a).
Proof.
  unfold Throughout, keeps_session, saveSession.
  destruct (truthy (currentSessionId a)); simpl; split_and!; try done; try always.
  all: destruct (truthy (Some (trim (get_value "sessionName" a)))); simpl;
    try done; try always.
  intros [r|e] a1; simpl; [destruct (ok r); simpl|]; split_and!; try done; always.
Qed.

Lemma showHistory_keeps a : Throughout keeps_session a (showHistory a).
Proof.
  unfold Throughout, keeps_session, showHistory. simpl. split_and!; try done; try always.
  intros [r|e] a1; simpl; [destruct (ok r); simpl|]; split_and!; try done; try always.
  intros [sessions|e] a2; simpl.
  - pose proof (displayHistory_session sessions a2) as Hd.
    destruct (displayHistory sessions a2) as [a3 [err|]]; simpl in *;
      split_and!; try done; always.
  - split_and!; try done; always.
Qed.

(** ** Code that sets no interval *)

Lemma sets_no_interval_refl a : sets_no_interval a a.
Proof. exists []. split_and!; [by rewrite app_nil_r|done..]. Qed.

Lemma sets_no_interval_trans a b c :
  sets_no_interval a b → sets_no_interval b c → sets_no_interval a c.
Proof.
  intros (es1 & L1 & I1 & T1) (es2 & L2 & I2 & T2). exists (es1 ++ es2)%list.
  split_and!.
  - by rewrite L2, L1, app_assoc.
  - unfold intervals_set in *. by rewrite omap_app, I1, I2.
  - auto.
Qed.

Lemma sets_no_interval_emit e a :
  intervals_set [e] = [] → sets_no_interval a (emit e a).
Proof. intros E. exists [e]. by split_and!. Qed.

Lemma sets_no_interval_frame a a' :
  log a' = log a → timers a' = timers a → sets_no_interval a a'.
Proof. intros L T. exists []. rewrite L, T, app_nil_r. by split_and!. Qed.

Lemma stopStatusChecking_no_interval a : sets_no_interval a (stopStatusChecking a).
Proof.
  destruct (stopStatusChecking_spec a) as (_ & _ & _ & _ & H).
  destruct (statusCheckInterval a) as [t|]; destruct H as [L T].
  - exists [ClearInterval t]. split_and!; [done..|].
    intros x. rewrite T, list_elem_of_filter. naive_solver.
  - by apply sets_no_interval_frame.
Qed.

Lemma displayProcessingStatus_frame status a :
  log (displayProcessingStatus status a).1 = log a ∧
  timers (displayProcessingStatus status a).1 = timers a.
Proof.
  unfold displayProcessingStatus. destruct (is_null status); [done|].
  destruct (get_files status); simpl; [|done].
  by rewrite foldl_processingStatus.
Qed.

Lemma status_body_no_interval status a :
  let '(a1, thrown) := displayProcessingStatus status a in
  sets_no_interval a a1 ∧
  sets_no_interval a (stopStatusChecking (showResultsSection a1)).
Proof.
  pose proof (displayProcessingStatus_frame status a) as [L T].
  destruct (displayProcessingStatus status a) as [a1 thrown]. simpl in *.
  assert (H1 : sets_no_interval a a1) by by apply sets_no_interval_frame.
  split; [done|].
  eapply sets_no_interval_trans; [done|].
  eapply sets_no_interval_trans; [|apply stopStatusChecking_no_interval].
  by apply sets_no_interval_frame.
Qed.

(** [andThen t f] runs what [t] runs, then what [f] runs. *)
Lemma andThen_Always (P : App → App → Prop) t f :
  (∀ a b c, P a b → P b c → P a c) →
  Always P t →
  (∀ a, Throughout P a (f a)) →
  ∀ a0 a sp, P a0 a → Forall (Always P) sp → Throughout P a0 (andThen t f a sp).
Proof.
  intros Htrans Ht Hf.
  induction Ht as [|k H1 H2 H3 IH|r k H1 H2 H3 IH]; intros a0 a sp Ha Hsp.
  - simpl. destruct (Hf a) as (F1 & F2 & F3). destruct (f a) as [[a' sp'] t']. simpl in *.
    split_and!; [by eapply Htrans| |done]. apply Forall_app. by split.
  - simpl. split_and!; [done..|]. apply Always_fetch'. intros o a1.
    specialize (H1 o a1). specialize (H2 o a1). specialize (IH o a1).
    destruct (k o a1) as [[a2 sp2] t2]. simpl in *. by apply IH.
  - simpl. split_and!; [done..|]. apply Always_json'. intros o a1.
    specialize (H1 o a1). specialize (H2 o a1). specialize (IH o a1).
    destruct (k o a1) as [[a2 sp2] t2]. simpl in *. by apply IH.
Qed.

Lemma updateProcessingStatus_no_interval a :
  Throughout sets_no_interval a (updateProcessingStatus a).
Proof.
  unfold updateProcessingStatus.
  destruct (truthy (currentSessionId a)); simpl.
  2: { apply Throughout_ret, sets_no_interval_refl. }
  split_and!; [by apply sets_no_interval_emit|always|always].
  intros [r|e] a1; simpl; [destruct (ok r); simpl|].
  - split_and!; [apply sets_no_interval_refl|always|always].
    intros [status|e] a2; simpl.
    + pose proof (status_body_no_interval status a2) as Hd.
      destruct (displayProcessingStatus status a2) as [a3 [err|]]; simpl in *;
        destruct Hd as [Hd1 Hd2].
      * apply Throughout_ret.
        eapply sets_no_interval_trans; [apply Hd1|]. by apply sets_no_interval_emit.
      * by case_bool_decide; apply Throughout_ret.
    + apply Throughout_ret. by apply sets_no_interval_emit.
  - apply Throughout_ret. by apply sets_no_interval_emit.
  - apply Throughout_ret. by apply sets_no_interval_emit.
Qed.

Lemma loadSession_check_no_interval sessionId a :
  Throughout sets_no_interval a (loadSession_check sessionId a).
Proof.
  unfold loadSession_check. simpl.
  split_and!; [by apply sets_no_interval_emit|always|always].
  intros [r|e] a1; simpl; [destruct (ok r); simpl|].
  - split_and!; [apply sets_no_interval_refl|always|always].
    intros [status|e] a2; simpl.
    + destruct (is_null status); [apply Throughout_ret; by apply sets_no_interval_emit|].
      case_bool_decide; apply Throughout_ret.
      * by apply sets_no_interval_frame.
      * apply sets_no_interval_refl.
    + apply Throughout_ret. by apply sets_no_interval_emit.
  - apply Throughout_ret, sets_no_interval_refl.
  - apply Throughout_ret. by apply sets_no_interval_emit.
Qed.

Lemma loadSession_no_interval sessionId a :
  Throughout sets_no_interval a (loadSession sessionId a).
Proof.
  unfold loadSession, showProcessingSection.
  set (a1 := classList_remove_hidden _ _).
  assert (H01 : sets_no_interval a a1) by by apply sets_no_interval_frame.
  pose proof (updateProcessingStatus_no_interval a1) as (H1 & H2 & H3).
  destruct (updateProcessingStatus a1) as [[a2 started] t]. simpl in *.
  pose proof (updateProcessingStatus_no_interval a2) as (H4 & H5 & H6).
  destruct (updateProcessingStatus a2) as [[a3 started'] t']. simpl in *.
  apply andThen_Always;
    eauto using sets_no_interval_trans, loadSession_check_no_interval.
  repeat (apply Forall_app; split); auto.
Qed.

(** ** The event loop runs the suspended code *)

Lemma handle_Fetch_settles s i o k :
  calls s !! i = Some (Await_fetch k) →
  app (handle s (Fetch_settles i o)) = state (on_fetch (app s, [], Await_fetch k) o (app s)).
Proof.
  intros E. unfold handle, on_fetch, state, resume. rewrite E. simpl.
  by destruct (k o (app s)) as [[a started] t].
Qed.

Lemma handle_Body_read s i response k :
  calls s !! i = Some (Await_json response k) →
  app (handle s (Body_read i)) = state (on_json (app s, [], Await_json response k) (app s)).
Proof.
  intros E. unfold handle, on_json, state, resume. rewrite E. simpl.
  by destruct (k (json response) (app s)) as [[a started] t].
Qed.

Lemma handle_Interval s t :
  t ∈ timers (app s) →
  app (handle s (Interval t)) = state (updateProcessingStatus (app s)).
Proof.
  intros E. unfold handle, call, state. rewrite bool_decide_eq_true_2 by done.
  by destruct (updateProcessingStatus (app s)) as [[a started] t'].
Qed.

(** * The statements of the specification *)

(** C1.  Stated: starting the poll cancels any timer still active, so that
    one timer at most is active after an upload.  The code does not do so:
    [startStatusChecking] sets a new interval and overwrites the handle it
    had, cancelling nothing.  When two submits are made before the first
    upload is answered, both uploads start a timer: two are active, only the
    second is recorded, and after the poll has reported completed and has
    stopped the recorded one, the first still fires and still sends status
    requests; hiding the tab stops the recorded one only, too. *)
Theorem startStatusChecking_cancels_nothing :
  (∀ a, timers (startStatusChecking a) = (timers a ++ [next_timer a])%list ∧
        statusCheckInterval (startStatusChecking a) = Some (next_timer a) ∧
        intervals_cleared (since a (startStatusChecking a)) = []) ∧
  let s := handle_all boot double_submit in
  let s1 := handle_all s poll_completed in
  let s2 := handle_all s1 [Interval 1] in
  let s3 := handle_all s [Visibilitychange true] in
  timers (app s) = [1; 2]%positive ∧
  statusCheckInterval (app s) = Some 2%positive ∧
  intervals_cleared (log (app s)) = [] ∧
  phase (app s1) = Some Results ∧
  statusCheckInterval (app s1) = None ∧
  timers (app s1) = [1%positive] ∧
  requests (since (app s1) (app s2)) = [GET "/status/s2"] ∧
  statusCheckInterval (app s3) = None ∧
  timers (app s3) = [1%positive].
Proof.
  split.
  - intros a. split_and!; try done.
    by rewrite (since_app a _ [SetInterval (next_timer a) 2000]).
  - vm_compute. done.
Qed.

(** C2, as stated, fails: the answer to a status request made for s1 is
    handled after the session s2 was loaded and its status displayed; the
    list then shows s1's file and the page moves to Results, the current
    session still being s2. *)
Lemma stale_response_overwrites :
  let s := handle_all boot upload_then_load in
  let s' := handle_all s stale_answer in
  requests (log (app s))
  = [POST "/upload" [("files", FormFile doc_pdf)];
     GET "/status/s1"; GET "/status/s2"; GET "/status/s2"] ∧
  currentSessionId (app s) = Some "s2" ∧
  processingStatus (app s) = [statusRow {| filename := "notes.docx"; file_type := "docx";
                                            status := "processing" |}] ∧
  phase (app s) = Some Processing ∧
  currentSessionId (app s') = Some "s2" ∧
  processingStatus (app s') = [statusRow {| filename := "doc.pdf"; file_type := "pdf";
                                             status := "completed" |}] ∧
  phase (app s') = Some Results.
Proof. vm_compute. done. Qed.

(** C2, amended.  A status request is made for session A, by
    [updateProcessingStatus] or by the check that ends [loadSession], and the
    current session is B when its answer is handled.  Handling the answer
    never changes the current session identifier and shows no toast.  A fetch
    that fails, or a body that cannot be read, leaves the status list and the
    sections as they were.  A 2xx answer is not discarded.  To the request of
    [updateProcessingStatus]: the status list is drawn again from the files
    of the body (emptied when the body has none, and nothing else changes
    then) and, when the body has files and reports completed, the processing
    section is hidden and the results shown.  To the check of [loadSession]:
    the status list is left alone and, when the body reports completed, the
    processing section is hidden and the results shown. *)
Theorem stale_status_response (a0 a a2 : App) (A B : string) (o : Outcome Response) :
  currentSessionId a0 = Some A → A ≠ "" →
  currentSessionId a = Some B → currentSessionId a2 = Some B →
  let call := updateProcessingStatus a0 in
  let st := on_fetch call o a in
  let st2 := on_json st a2 in
  let check := loadSession_check A a0 in
  let ct := on_fetch check o a in
  let ct2 := on_json ct a2 in
  requests (since a0 (state call)) = [GET ("/status/" +:+ A)] ∧
  currentSessionId (state st) = Some B ∧
  currentSessionId (state st2) = Some B ∧
  toasts (since a (state st)) = [] ∧
  toasts (since a2 (state st2)) = [] ∧
  processingStatus (state st) = processingStatus a ∧
  hidden (state st) = hidden a ∧
  (failed o = true → returned st) ∧
  (∀ response e, o = Resolved response → ok response = true → json response = Rejected e →
     returned st2 ∧
     processingStatus (state st2) = processingStatus a2 ∧
     hidden (state st2) = hidden a2) ∧
  (∀ response s files, o = Resolved response → answers response (StatusBody s files) →
     returned st2 ∧
     processingStatus (state st2) = statusRow <$> files ∧
     (s = "completed" →
        classList_contains_hidden "processingSection" (state st2) = true ∧
        classList_contains_hidden "resultsSection" (state st2) = false) ∧
     (s ≠ "completed" → hidden (state st2) = hidden a2)) ∧
  (∀ response status, o = Resolved response → answers response status →
     get_files status = None →
     returned st2 ∧
     processingStatus (state st2) = [] ∧
     hidden (state st2) = hidden a2) ∧
  requests (since a0 (state check)) = [GET ("/status/" +:+ A)] ∧
  currentSessionId (state ct) = Some B ∧
  currentSessionId (state ct2) = Some B ∧
  toasts (since a (state ct)) = [] ∧
  toasts (since a2 (state ct2)) = [] ∧
  processingStatus (state ct) = processingStatus a ∧
  processingStatus (state ct2) = processingStatus a2 ∧
  hidden (state ct) = hidden a ∧
  (failed o = true → returned ct) ∧
  (∀ response, o = Resolved response → ok response = true →
     returned ct2 ∧
     match json response with
     | Resolved status =>
         if bool_decide (get_status status = Some "completed") then
           classList_contains_hidden "processingSection" (state ct2) = true ∧
           classList_contains_hidden "resultsSection" (state ct2) = false
         else hidden (state ct2) = hidden a2
     | Rejected _ => hidden (state ct2) = hidden a2
     end).
Proof.
  intros HA Hne HB HB2 call st st2 check ct ct2.
  assert (Ht : truthy (currentSessionId a0) = true) by (rewrite HA; by apply truthy_Some).
  assert (Hcall : call = (fetch (GET ("/status/" +:+ A)) a0, [], call.2)).
  { subst call. unfold updateProcessingStatus. rewrite Ht, HA. done. }
  assert (Hst : currentSessionId (state st) = currentSessionId a ∧
                toasts (since a (state st)) = [] ∧
                processingStatus (state st) = processingStatus a ∧
                hidden (state st) = hidden a ∧
                (failed o = true → returned st)).
  { subst st call. unfold updateProcessingStatus, on_fetch. rewrite Ht. simpl.
    destruct o as [r|e]; simpl; [destruct (ok r); simpl|]; unfold state; simpl; split_and!;
      auto using returned_ret; try done;
      first [ by rewrite since_same_log | by eapply toasts_since ]. }
  destruct Hst as (Hs1 & Ho1 & Hp1 & Hh1 & Hf1).
  assert (Hct : currentSessionId (state ct) = currentSessionId a ∧
                toasts (since a (state ct)) = [] ∧
                processingStatus (state ct) = processingStatus a ∧
                hidden (state ct) = hidden a ∧
                (failed o = true → returned ct)).
  { subst ct check. unfold loadSession_check, on_fetch. simpl.
    destruct o as [r|e]; simpl; [destruct (ok r); simpl|]; unfold state; simpl; split_and!;
      auto using returned_ret; try done;
      first [ by rewrite since_same_log | by eapply toasts_since ]. }
  destruct Hct as (Hs3 & Ho3 & Hp3 & Hh3 & Hf3).
  assert (Hst2 : currentSessionId (state st2) = currentSessionId a2 ∧
                 toasts (since a2 (state st2)) = []).
  { subst st2 st call. unfold state, updateProcessingStatus, on_fetch, on_json.
    rewrite Ht. simpl.
    destruct o as [r|e]; simpl; [destruct (ok r); simpl|];
      try (split; [done|by rewrite since_same_log]).
    destruct (json r) as [status|e]; simpl; [|split; [done|by eapply toasts_since]].
    pose proof (displayProcessingStatus_session status a2) as Hd.
    pose proof (displayProcessingStatus_frame status a2) as [Hl _].
    destruct (displayProcessingStatus status a2) as [a3 [err|]]; simpl in *.
    - split; [done|]. eapply toasts_since; [simpl; by rewrite Hl|done].
    - case_bool_decide; simpl; [|split; [done|by rewrite since_same_log]].
      destruct (stopStatusChecking_spec (showResultsSection a3)) as (Hs & _ & _ & _ & Hc).
      split; [by rewrite Hs|]. simpl in Hc.
      destruct (statusCheckInterval a3); destruct Hc as [Hc _].
      + eapply toasts_since; [by rewrite Hc, Hl|done].
      + rewrite since_same_log; [done|]. by rewrite Hc. }
  assert (Hct2 : currentSessionId (state ct2) = currentSessionId a2 ∧
                 toasts (since a2 (state ct2)) = [] ∧
                 processingStatus (state ct2) = processingStatus a2).
  { subst ct2 ct check. unfold state, loadSession_check, on_fetch, on_json. simpl.
    destruct o as [r|e]; simpl; [destruct (ok r); simpl|];
      try (split_and!; [done|by rewrite since_same_log|done]).
    destruct (json r) as [status|e]; simpl.
    - destruct (is_null status); simpl; [split_and!; [done|by eapply toasts_since|done]|].
      case_bool_decide; simpl; (split_and!; [done|by rewrite since_same_log|done]).
    - split_and!; [done|by eapply toasts_since|done]. }
  destruct Hst2 as (Hs2 & Ho2). destruct Hct2 as (Hs4 & Ho4 & Hp4).
  split_and!; try congruence; try done.
  - rewrite Hcall. unfold state. simpl.
    by rewrite (since_app _ _ [Fetch (GET ("/status/" +:+ A))]).
  - intros r e -> Hok Hj. subst st2 st call.
    unfold updateProcessingStatus, on_fetch, on_json. rewrite Ht. simpl.
    rewrite Hok. simpl. rewrite Hj. split_and!; auto using returned_ret.
  - intros r s files -> Hans.
    destruct (status_handled a0 r s files a a2 Ht Hans) as [_ E2].
    subst st2 st call. rewrite E2. unfold state. simpl.
    split_and!; auto using returned_ret.
    + case_bool_decide; [|done].
      by destruct (stopStatusChecking_spec
                     (showResultsSection (set_processingStatus (statusRow <$> files) a2)))
        as (_ & _ & -> & _).
    + intros ->. rewrite bool_decide_eq_true_2 by done.
      destruct (stopStatusChecking_spec
                  (showResultsSection (set_processingStatus (statusRow <$> files) a2)))
        as (_ & Hh & _).
      rewrite showResultsSection_hidden in Hh. simpl in Hh.
      split; [apply contains_true|apply contains_false]; rewrite Hh; set_solver.
    + intros Hc. by rewrite bool_decide_eq_false_2.
  - intros r status -> [Hok Hj] Hfiles. subst st2 st call.
    unfold updateProcessingStatus, on_fetch, on_json. rewrite Ht. simpl.
    rewrite Hok. simpl. rewrite Hj. unfold displayProcessingStatus. rewrite Hfiles.
    destruct (is_null status); simpl; split_and!; auto using returned_ret.
  - subst check. unfold state, loadSession_check. simpl.
    by rewrite (since_app _ _ [Fetch (GET ("/status/" +:+ A))]).
  - intros r -> Hok. subst ct2 ct check.
    unfold loadSession_check, on_fetch, on_json, state. simpl. rewrite Hok. simpl.
    destruct (json r) as [status|e]; simpl; [|auto using returned_ret].
    destruct (is_null status) eqn:En; simpl.
    + destruct status; try discriminate. simpl. auto using returned_ret.
    + case_bool_decide; simpl; (split; [apply returned_ret|]); [|done].
      split; [apply contains_true|apply contains_false]; hid; set_solver.
Qed.

Lemma stale_status_response_witness :
  let s := app (handle_all boot upload_then_load) in
  currentSessionId processing = Some "s1" ∧
  currentSessionId s = Some "s2" ∧
  currentSessionId
    (state (on_json (on_fetch (updateProcessingStatus processing)
                       (Resolved (ok_response (status_of "completed" "doc.pdf" "pdf"))) s) s))
  = Some "s2".
Proof.
  intros s.
  assert (H1 : currentSessionId processing = Some "s1") by (vm_compute; reflexivity).
  assert (H2 : currentSessionId s = Some "s2") by (vm_compute; reflexivity).
  assert (H3 : "s1" ≠ "") by discriminate.
  split_and!; [exact H1|exact H2|].
  exact (proj1 (proj2 (proj2
    (stale_status_response processing s s "s1" "s2"
       (Resolved (ok_response (status_of "completed" "doc.pdf" "pdf"))) H1 H3 H2 H2)))).
Defined.

(** C3.  A submit with no file selected returns at once: it sends no
    request, shows the error toast, and leaves the phase (Upload, if it was
    Upload) and the current session identifier as they were. *)
Theorem uploadFiles_empty (a : App) :
  fileInput_files a = [] →
  let st := uploadFiles a in
  returned st ∧
  since a (state st) = [Toast "Please select files to upload" "error"] ∧
  requests (since a (state st)) = [] ∧
  error_toasts (since a (state st)) = ["Please select files to upload"] ∧
  phase (state st) = phase a ∧
  (phase a = Some Upload → phase (state st) = Some Upload) ∧
  currentSessionId (state st) = currentSessionId a.
Proof.
  intros E. unfold uploadFiles. rewrite E. simpl.
  assert (S : since a (showToast "Please select files to upload" "error" a)
              = [Toast "Please select files to upload" "error"])
    by (by apply since_app).
  unfold state. simpl. rewrite S. split_and!; auto using returned_ret.
Qed.

Lemma uploadFiles_empty_witness :
  fileInput_files (constructor page) = [] ∧
  phase (constructor page) = Some Upload ∧
  phase (state (uploadFiles (constructor page))) = Some Upload ∧
  requests (since (constructor page) (state (uploadFiles (constructor page)))) = [].
Proof.
  assert (H1 : fileInput_files (constructor page) = []) by reflexivity.
  assert (H2 : phase (constructor page) = Some Upload) by (vm_compute; reflexivity).
  destruct (uploadFiles_empty (constructor page) H1) as (_ & _ & Hr & _ & _ & Hp & _).
  split_and!; [exact H1|exact H2|exact (Hp H2)|exact Hr].
Defined.




(** C5.  An upload of some files commits nothing before its answer: up to
    the request it sends that one request and shows the overlay, and the
    current session identifier, the recorded handle, the timers, the phase
    and all but the log and the overlay are as they were.  When the fetch is
    rejected or answered outside 2xx, or the body cannot be read or is null,
    it reports the failure in an error toast and returns; it sends nothing
    more, sets no interval, and leaves the current session identifier, the
    recorded handle, the timers, the phase and all but the log and the
    overlay as they were when the failure was handled.  So an upload that
    fails with nothing run in between ends with session, handle, timers and
    phase as before the submit, in Upload if it was in Upload. *)
Theorem uploadFiles_failure (a0 : App) :
  fileInput_files a0 ≠ [] →
  let call := uploadFiles a0 in
  since a0 (state call)
  = [Fetch (POST "/upload" ((λ file, ("files", FormFile file)) <$> fileInput_files a0))] ∧
  call.1.2 = [] ∧
  currentSessionId (state call) = currentSessionId a0 ∧
  statusCheckInterval (state call) = statusCheckInterval a0 ∧
  timers (state call) = timers a0 ∧
  phase (state call) = phase a0 ∧
  only_overlay_and_log a0 (state call) ∧
  (∀ o a, failed o = true → upload_reported_failed a (on_fetch call o a)) ∧
  (∀ response a a2,
     ok response = true →
     (∃ e, json response = Rejected e) ∨ json response = Resolved NullBody →
     let st := on_fetch call (Resolved response) a in
     state st = a ∧ upload_reported_failed a2 (on_json st a2)) ∧
  (∀ o, failed o = true →
     let a' := state (on_fetch call o (state call)) in
     returned (on_fetch call o (state call)) ∧
     (∃ m, error_toasts (since a0 a') = ["Upload failed: " +:+ m]) ∧
     intervals_set (since a0 a') = [] ∧
     currentSessionId a' = currentSessionId a0 ∧
     statusCheckInterval a' = statusCheckInterval a0 ∧
     timers a' = timers a0 ∧
     phase a' = phase a0 ∧
     (phase a0 = Some Upload → phase a' = Some Upload) ∧
     only_overlay_and_log a0 a').
Proof.
  intros Hf call.
  assert (Hfail : ∀ o a, failed o = true → upload_reported_failed a (on_fetch call o a)).
  { subst call. unfold uploadFiles.
    destruct (fileInput_files a0) as [|f fs] eqn:E; [done|]. simpl.
    unfold on_fetch. simpl. intros [r|e] a Ho; simpl in Ho.
    - rewrite Ho. apply uploadFiles_catch_spec.
    - apply uploadFiles_catch_spec. }
  assert (Hcall : state call
                  = fetch (POST "/upload"
                             ((λ file, ("files", FormFile file)) <$> fileInput_files a0))
                          (showLoadingOverlay a0) ∧ call.1.2 = []).
  { subst call. unfold uploadFiles. by destruct (fileInput_files a0) as [|f fs]. }
  destruct Hcall as [Hcall Hstarted].
  assert (Hphase : phase (state call) = phase a0).
  { rewrite Hcall. apply same_sections_phase. intros id Hid. hid. set_solver. }
  assert (Hsince : since a0 (state call)
                   = [Fetch (POST "/upload"
                               ((λ file, ("files", FormFile file)) <$> fileInput_files a0))]).
  { rewrite Hcall. by apply since_app. }
  assert (Hframe : only_overlay_and_log a0 (state call)).
  { rewrite Hcall. overlay_and_log. }
  split_and!; try done; try (by rewrite Hcall).
  - intros r a a2 Hok Hj. subst call. unfold uploadFiles.
    destruct (fileInput_files a0) as [|f fs] eqn:E; [done|]. simpl.
    unfold on_fetch. simpl. rewrite Hok. simpl. split; [done|].
    unfold on_json. simpl. destruct Hj as [[e ->]| ->]; apply uploadFiles_catch_spec.
  - intros o Ho. simpl.
    destruct (Hfail o (state call) Ho)
      as (Hr & (m & Htoast) & Hreq & Hint & H1 & H2 & H3 & H4 & H5).
    assert (Hlog : ∃ es, log (state (on_fetch call o (state call)))
                         = (log (state call) ++ es)%list ∧
                         es = since (state call) (state (on_fetch call o (state call)))).
    { subst call. unfold uploadFiles.
      destruct (fileInput_files a0) as [|f fs] eqn:E; [done|]. simpl.
      unfold on_fetch, state. simpl.
      destruct o as [r|e]; simpl in *; [rewrite Ho; simpl|];
        (eexists; split; [|symmetry; apply since_app]; simpl; rewrite <- ?app_assoc;
         reflexivity). }
    destruct Hlog as (es & Hlog & Hes).
    assert (Hall : since a0 (state (on_fetch call o (state call)))
                   = (since a0 (state call) ++ es)%list).
    { rewrite Hsince. apply since_app. rewrite Hlog, Hcall. simpl.
      by rewrite <- app_assoc. }
    rewrite Hall, Hsince, Hes. split_and!.
    + done.
    + exists m. simpl. exact Htoast.
    + simpl. exact Hint.
    + rewrite H1. by rewrite Hcall.
    + rewrite H2. by rewrite Hcall.
    + rewrite H3. by rewrite Hcall.
    + by rewrite H4.
    + intros Hu. by rewrite H4, Hphase.
    + by apply (only_overlay_and_log_trans a0 (state call)).
Qed.

Lemma uploadFiles_failure_witness :
  let call := uploadFiles selected in
  fileInput_files selected ≠ [] ∧
  upload_reported_failed selected (on_fetch call (Resolved server_error) selected) ∧
  phase selected = Some Upload ∧
  phase (state (on_fetch call (Resolved server_error) (state call))) = Some Upload ∧
  currentSessionId (state (on_fetch call (Resolved server_error) (state call))) = None.
Proof.
  intros call.
  assert (H1 : fileInput_files selected ≠ []) by (vm_compute; discriminate).
  assert (H2 : phase selected = Some Upload) by (vm_compute; reflexivity).
  destruct (uploadFiles_failure selected H1) as (_ & _ & _ & _ & _ & _ & _ & Hf & _ & Hw).
  destruct (Hw (Resolved server_error) eq_refl) as (_ & _ & _ & Hs & _ & _ & _ & Hp & _).
  split_and!; [exact H1|exact (Hf (Resolved server_error) selected eq_refl)|exact H2
              |exact (Hp H2)|exact Hs].
Defined.

(** C6.  With a current session, a summary or quiz request shows no toast
    and leaves the summary and the quiz on display, and all but the log and
    the overlay, as they were up to its fetch.  When the fetch is rejected or
    answered outside 2xx, or the body cannot be read or is null, it shows
    its error toast and leaves the summary and the quiz on display, and all
    but the log and the overlay, as they were; so a request that fails with
    nothing run in between ends with the display it started with.  The
    display is written only while handling the body of a 2xx answer that is
    not null: the summary text is replaced by the answer's content, the quiz
    by the answer's questions (a 2xx body without questions empties the quiz
    and is reported as a failure). *)
Theorem generate_failure (a0 : App) :
  truthy (currentSessionId a0) = true →
  let cs := generateSummary a0 in
  let cq := generateQuiz a0 in
  (results_display (state cs) = results_display a0 ∧
   only_overlay_and_log a0 (state cs) ∧
   toasts (since a0 (state cs)) = [] ∧ cs.1.2 = []) ∧
  (results_display (state cq) = results_display a0 ∧
   only_overlay_and_log a0 (state cq) ∧
   toasts (since a0 (state cq)) = [] ∧ cq.1.2 = []) ∧
  (∀ o a, failed o = true →
     quiet_failure "Failed to generate summary" a (on_fetch cs o a) ∧
     quiet_failure "Failed to generate quiz" a (on_fetch cq o a)) ∧
  (∀ o, failed o = true →
     let a1 := state (on_fetch cs o (state cs)) in
     let a2 := state (on_fetch cq o (state cq)) in
     results_display a1 = results_display a0 ∧
     only_overlay_and_log a0 a1 ∧
     error_toasts (since a0 a1) = ["Failed to generate summary"] ∧
     results_display a2 = results_display a0 ∧
     only_overlay_and_log a0 a2 ∧
     error_toasts (since a0 a2) = ["Failed to generate quiz"]) ∧
  (∀ response a, ok response = true →
     let st := on_fetch cs (Resolved response) a in
     state st = a ∧
     ∀ a2,
       match json response with
       | Rejected _ => quiet_failure "Failed to generate summary" a2 (on_json st a2)
       | Resolved summary =>
           if is_null summary then
             quiet_failure "Failed to generate summary" a2 (on_json st a2)
           else
             returned (on_json st a2) ∧
             error_toasts (since a2 (state (on_json st a2))) = [] ∧
             summaryContent (state (on_json st a2)) = default "" (get_content summary) ∧
             classList_contains_hidden "summaryResult" (state (on_json st a2)) = false
       end) ∧
  (∀ response a, ok response = true →
     let st := on_fetch cq (Resolved response) a in
     state st = a ∧
     ∀ a2,
       match json response with
       | Rejected _ => quiet_failure "Failed to generate quiz" a2 (on_json st a2)
       | Resolved quiz =>
           if is_null quiz then
             quiet_failure "Failed to generate quiz" a2 (on_json st a2)
           else
             returned (on_json st a2) ∧
             match get_questions quiz with
             | Some questions =>
                 error_toasts (since a2 (state (on_json st a2))) = [] ∧
                 quizContent (state (on_json st a2))
                 = imap (λ index question,
                           {| item_index := index; item_question := question |}) questions ∧
                 classList_contains_hidden "quizResult" (state (on_json st a2)) = false
             | None =>
                 error_toasts (since a2 (state (on_json st a2))) = ["Failed to generate quiz"] ∧
                 quizContent (state (on_json st a2)) = []
             end
       end).
Proof.
  intros Hs cs cq. subst cs cq. unfold generateSummary, generateQuiz. rewrite Hs. simpl.
  unfold on_fetch; simpl. split_and!.
  - unfold state; simpl. apply results_display_frame; try done. intros id Hid. hid. set_solver.
  - unfold state; simpl. overlay_and_log.
  - unfold state; simpl. by eapply toasts_since.
  - done.
  - unfold state; simpl. apply results_display_frame; try done. intros id Hid. hid. set_solver.
  - unfold state; simpl. overlay_and_log.
  - unfold state; simpl. by eapply toasts_since.
  - done.
  - intros [r|e] a Ho; simpl in Ho; rewrite ?Ho; simpl;
      split; auto using generateSummary_catch_spec, generateQuiz_catch_spec.
  - intros o Ho. unfold state. simpl.
    destruct o as [r|e]; simpl in Ho; rewrite ?Ho; simpl.
    all: split_and!;
      try (apply results_display_frame; try done; intros id Hid; hid; set_solver);
      try overlay_and_log.
    all: erewrite since_app; [|simpl; rewrite <- ?app_assoc; reflexivity]; done.
  - intros r a Hok. rewrite Hok. simpl. split; [done|]. intros a2.
    unfold on_json; simpl. destruct (json r) as [summary|e]; simpl.
    + destruct (is_null summary); [apply generateSummary_catch_spec|].
      unfold state; simpl. split_and!; auto using returned_ret.
      * by rewrite since_same_log.
      * hid. apply bool_decide_eq_false. set_solver.
    + apply generateSummary_catch_spec.
  - intros r a Hok. rewrite Hok. simpl. split; [done|]. intros a2.
    unfold on_json; simpl. destruct (json r) as [quiz|e]; simpl.
    + destruct (is_null quiz); [apply generateQuiz_catch_spec|].
      destruct (get_questions quiz) as [questions|] eqn:Eq.
      * rewrite displayQuiz_questions. unfold state; simpl.
        split_and!; auto using returned_ret.
        -- by rewrite since_same_log.
        -- hid. apply bool_decide_eq_false. set_solver.
      * unfold state; simpl. split_and!; auto using returned_ret.
        rewrite (since_app _ _ [ConsoleError "Quiz generation error:" (TypeError "questions");
                                 Toast "Failed to generate quiz" "error"]); [done|].
        simpl. by rewrite <- app_assoc.
    + apply generateQuiz_catch_spec.
Qed.

Lemma generate_failure_witness :
  let cs := generateSummary processing in
  let cq := generateQuiz processing in
  truthy (currentSessionId processing) = true ∧
  quiet_failure "Failed to generate summary" processing
    (on_fetch cs (Resolved server_error) processing) ∧
  quiet_failure "Failed to generate quiz" processing
    (on_fetch cq (Resolved server_error) processing) ∧
  results_display (state (on_fetch cs (Resolved server_error) (state cs)))
  = results_display processing.
Proof.
  intros cs cq.
  assert (H1 : truthy (currentSessionId processing) = true) by (vm_compute; reflexivity).
  destruct (generate_failure processing H1) as (_ & _ & Hf & Hw & _).
  destruct (Hf (Resolved server_error) processing eq_refl) as [Hfs Hfq].
  split_and!; [exact H1|exact Hfs|exact Hfq|].
  exact (proj1 (Hw (Resolved server_error) eq_refl)).
Defined.

(** C7, as stated, fails.  Viewing a saved session from the Results phase
    leaves the results section displayed beside the processing section: the
    page is in no phase, and it stays so when the session viewed is still
    processing.  And with the empty string as id, no status is fetched for
    the list: only the check that ends [loadSession] is sent. *)
Lemma loadSession_from_results :
  let s1 := handle in_results (Click_view "s2") in
  let s2 := handle_all in_results view_from_results in
  phase (app in_results) = Some Results ∧
  classList_contains_hidden "processingSection" (app s1) = false ∧
  classList_contains_hidden "resultsSection" (app s1) = false ∧
  phase (app s1) = None ∧
  currentSessionId (app s2) = Some "s2" ∧
  Forall (λ c, c = Done) (calls s2) ∧
  classList_contains_hidden "processingSection" (app s2) = false ∧
  classList_contains_hidden "resultsSection" (app s2) = false ∧
  phase (app s2) = None ∧
  requests (since (app boot) (state (loadSession "" (app boot)))) = [GET "/status/"].
Proof. vm_compute. split_and!; try done. by repeat constructor. Qed.

(** C7, amended.  [loadSession(id)] makes id the current session, hides the
    history overlay, hides the upload section and shows the processing
    section, and leaves the results section as it was: the page is in the
    Processing phase when the results section was hidden, and in no phase
    otherwise.  No part of the call ever sets an interval.  For a non-empty
    id it sends two status requests for id, one of them through an
    [updateProcessingStatus] it does not await.  When the awaited one is
    answered 2xx with a status body, the status list is drawn again from it,
    one row per file, and, if it reports completed, the processing section
    gives way to the results section; a last status request follows, and
    shows the results section when it too reports completed.  For the empty
    id the only request is that last one, and the status list is never drawn
    again. *)
Theorem loadSession_spec (sessionId : string) (a : App) :
  let st := loadSession sessionId a in
  currentSessionId (state st) = Some sessionId ∧
  classList_contains_hidden "historyModal" (state st) = true ∧
  classList_contains_hidden "processingSection" (state st) = false ∧
  classList_contains_hidden "uploadSection" (state st) = true ∧
  ("resultsSection" ∈ hidden (state st) ↔ "resultsSection" ∈ hidden a) ∧
  ("resultsSection" ∈ hidden a → phase (state st) = Some Processing) ∧
  ("resultsSection" ∉ hidden a → phase (state st) = None) ∧
  processingStatus (state st) = processingStatus a ∧
  Throughout sets_no_interval a st ∧
  (sessionId ≠ "" →
     requests (since a (state st))
     = [GET ("/status/" +:+ sessionId); GET ("/status/" +:+ sessionId)] ∧
     st.1.2 = [(updateProcessingStatus (state st)).2] ∧
     ∀ response s files a1 a2,
       answers response (StatusBody s files) →
       let st1 := on_fetch st (Resolved response) a1 in
       let st2 := on_json st1 a2 in
       state st1 = a1 ∧
       processingStatus (state st2) = statusRow <$> files ∧
       Forall2 shows_row (processingStatus (state st2)) files ∧
       requests (since a2 (state st2)) = [GET ("/status/" +:+ sessionId)] ∧
       (s = "completed" →
          classList_contains_hidden "processingSection" (state st2) = true ∧
          classList_contains_hidden "resultsSection" (state st2) = false ∧
          ("uploadSection" ∈ hidden a2 → phase (state st2) = Some Results)) ∧
       (s ≠ "completed" → hidden (state st2) = hidden a2) ∧
       ∀ response' files' a3 a4,
         answers response' (StatusBody "completed" files') →
         let st3 := on_fetch st2 (Resolved response') a3 in
         state st3 = a3 ∧
         on_json st3 a4 = ret (showResultsSection a4)) ∧
  (sessionId = "" →
     requests (since a (state st)) = [GET "/status/"] ∧
     st.1.2 = [Done] ∧
     ∀ o a1 a2,
       processingStatus (state (on_fetch st o a1)) = processingStatus a1 ∧
       processingStatus (state (on_json (on_fetch st o a1) a2)) = processingStatus a2).
Proof.
  intros st.
  assert (Hfirst :
    currentSessionId (state st) = Some sessionId ∧
    hidden (state st)
    = ({[ "uploadSection" ]} ∪ ({[ "historyModal" ]} ∪ hidden a)) ∖ {[ "processingSection" ]} ∧
    processingStatus (state st) = processingStatus a).
  { subst st. unfold loadSession, showProcessingSection, updateProcessingStatus. simpl.
    destruct (truthy (Some sessionId)) eqn:Ht; simpl; rewrite ?Ht; simpl; unfold state; simpl;
      done. }
  destruct Hfirst as (Hsid & Hhid & Hrows).
  split_and!; try apply loadSession_no_interval; try done.
  - apply contains_true. rewrite Hhid. set_solver.
  - apply contains_false. rewrite Hhid. set_solver.
  - apply contains_true. rewrite Hhid. set_solver.
  - rewrite Hhid. set_solver.
  - intros Hr. apply phase_Processing. rewrite Hhid. set_solver.
  - intros Hr. unfold phase, classList_contains_hidden.
    rewrite (bool_decide_eq_true_2 ("uploadSection" ∈ hidden (state st)))
      by (rewrite Hhid; set_solver).
    rewrite (bool_decide_eq_false_2 ("processingSection" ∈ hidden (state st)))
      by (rewrite Hhid; set_solver).
    rewrite (bool_decide_eq_false_2 ("resultsSection" ∈ hidden (state st)))
      by (rewrite Hhid; set_solver).
    done.
  - intros Hne. clear Hsid Hhid Hrows. apply truthy_Some in Hne as Ht.
    subst st; unfold loadSession, showProcessingSection, updateProcessingStatus.
    simpl; rewrite Ht; simpl; rewrite Ht; simpl; unfold state; simpl.
    split_and!.
    + erewrite since_app; [|simpl; rewrite <- app_assoc; reflexivity]. done.
    + by rewrite Ht.
    + intros response s files a1 a2 [Hok Hj].
      unfold on_fetch; simpl. rewrite Hok; simpl. split; [done|].
      unfold on_json; simpl. rewrite Hj.
      rewrite displayProcessingStatus_files. simpl.
      assert (Hlast : ∀ (response' : Response) (files' : list FileRecord) (a3 a4 : App),
                answers response' (StatusBody "completed" files') →
                ∀ a5,
                  let st3 := on_fetch (loadSession_check sessionId a5) (Resolved response') a3 in
                  st3.1.1 = a3 ∧ on_json st3 a4 = ret (showResultsSection a4)).
      { intros response' files' a3 a4 [Hok' Hj'] a5. unfold on_fetch, on_json; simpl.
        rewrite Hok'; simpl. by rewrite Hj'. }
      destruct (decide (s = "completed")) as [->|Hc].
      * rewrite bool_decide_eq_true_2 by done. simpl.
        set (a' := set_processingStatus (statusRow <$> files) a2).
        destruct (stopStatusChecking_spec (showResultsSection a')) as (_ & Hh & Hp & _ & Hl).
        rewrite showResultsSection_hidden in Hh. simpl in Hh, Hp, Hl.
        split_and!.
        -- done.
        -- simpl. rewrite Hp. apply statusRow_shows.
        -- destruct (statusCheckInterval a2) as [t|]; destruct Hl as [Hl _].
           ++ erewrite since_app; [|simpl; rewrite Hl, <- app_assoc; reflexivity]. done.
           ++ erewrite since_app; [|simpl; rewrite Hl; reflexivity]. done.
        -- intros _. split_and!.
           ++ apply contains_true. simpl. rewrite Hh. set_solver.
           ++ apply contains_false. simpl. rewrite Hh. set_solver.
           ++ intros Hu. apply phase_Results. simpl. rewrite Hh. set_solver.
        -- done.
        -- intros response' files' a3 a4 Ha'.
           apply (Hlast response' files' a3 a4 Ha' (stopStatusChecking (showResultsSection a'))).
      * rewrite bool_decide_eq_false_2 by congruence. simpl.
        split_and!.
        -- done.
        -- apply statusRow_shows.
        -- erewrite since_app; [|simpl; reflexivity]. done.
        -- done.
        -- done.
        -- intros response' files' a3 a4 Ha'.
           apply (Hlast response' files' a3 a4 Ha'
                    (set_processingStatus (statusRow <$> files) a2)).
  - intros ->. clear Hsid Hhid Hrows.
    subst st; unfold loadSession, showProcessingSection, updateProcessingStatus.
    assert (Ht : truthy (Some "") = false) by done.
    simpl; rewrite ?Ht; simpl; rewrite ?Ht; simpl; unfold state; simpl.
    split_and!; [by rewrite (since_app _ _ [Fetch (GET "/status/")])|done|].
    intros o a1 a2. unfold on_fetch, on_json. simpl.
    destruct o as [r|e]; simpl; [destruct (ok r); simpl|]; try done.
    split; [done|]. destruct (json r) as [status|e]; simpl; [|done].
    destruct (is_null status); [done|]. by case_bool_decide.
Qed.

Lemma loadSession_spec_witness :
  "s2" ≠ "" ∧
  "resultsSection" ∈ hidden processing ∧
  currentSessionId (state (loadSession "s2" processing)) = Some "s2" ∧
  phase (state (loadSession "s2" processing)) = Some Processing ∧
  requests (since processing (state (loadSession "s2" processing)))
  = [GET ("/status/" +:+ "s2"); GET ("/status/" +:+ "s2")] ∧
  Throughout sets_no_interval processing (loadSession "s2" processing).
Proof.
  assert (H : "s2" ≠ "") by discriminate.
  assert (Hr : "resultsSection" ∈ hidden processing)
    by (apply (bool_decide_unpack _); vm_compute; exact I).
  destruct (loadSession_spec "s2" processing)
    as (H1 & _ & _ & _ & _ & Hp & _ & _ & H3 & Hne & _).
  split_and!; [exact H|exact Hr|exact H1|exact (Hp Hr)|exact (proj1 (Hne H))|exact H3].
Defined.

(** C8, as stated, fails: with no current session, [saveSession] on an
    empty name returns before looking at the name and shows no error. *)
Lemma saveSession_no_session_silent :
  let a := constructor page in
  currentSessionId a = None ∧
  trim (get_value "sessionName" a) = "" ∧
  saveSession a = ret a ∧
  error_toasts (since a (state (saveSession a))) = [].
Proof. vm_compute. done. Qed.

(** C8, amended.  While a current session identifier is set: when the name
    is empty after trimming, [saveSession] sends no request and shows the
    validation error; otherwise it posts the trimmed name to
    /save-session/ followed by the current session identifier.  The phase
    is the same after the call, and after its answer is handled, whatever
    the answer. *)
Theorem saveSession_with_session (a : App) (sid : string) :
  currentSessionId a = Some sid → sid ≠ "" →
  let sessionName := trim (get_value "sessionName" a) in
  let st := saveSession a in
  (sessionName = "" →
     returned st ∧
     requests (since a (state st)) = [] ∧
     error_toasts (since a (state st)) = ["Please enter a session name"] ∧
     phase (state st) = phase a) ∧
  (sessionName ≠ "" →
     since a (state st)
     = [Fetch (POST ("/save-session/" +:+ sid) [("session_name", FormText sessionName)])] ∧
     phase (state st) = phase a ∧
     ∀ o a', returned (on_fetch st o a') ∧ phase (state (on_fetch st o a')) = phase a').
Proof.
  intros Hs Hne sessionName st. subst st. unfold saveSession. rewrite Hs.
  apply truthy_Some in Hne as Ht. rewrite Ht. simpl negb. cbv iota.
  fold sessionName. split.
  - intros E. apply truthy_Some_false in E as Et. rewrite Et. simpl.
    unfold state; simpl.
    rewrite (since_app a _ [Toast "Please enter a session name" "error"]) by done.
    split_and!; auto using returned_ret.
  - intros E. apply truthy_Some in E as Et. rewrite Et. simpl.
    unfold state, on_fetch; simpl. split_and!.
    + by apply since_app.
    + done.
    + intros o a'. destruct o as [r|e]; [destruct (ok r)|]; simpl;
        split; auto using returned_ret.
Qed.

Lemma saveSession_with_session_witness :
  currentSessionId blank_name = Some "s1" ∧
  get_value "sessionName" blank_name ≠ "" ∧
  trim (get_value "sessionName" blank_name) = "" ∧
  error_toasts (since blank_name (state (saveSession blank_name)))
  = ["Please enter a session name"] ∧
  requests (since blank_name (state (saveSession blank_name))) = [].
Proof.
  assert (H1 : currentSessionId blank_name = Some "s1") by (vm_compute; reflexivity).
  assert (H2 : "s1" ≠ "") by discriminate.
  assert (H3 : trim (get_value "sessionName" blank_name) = "") by (vm_compute; reflexivity).
  assert (H4 : get_value "sessionName" blank_name ≠ "") by (vm_compute; discriminate).
  destruct (proj1 (saveSession_with_session blank_name "s1" H1 H2) H3) as (_ & Hr & Ht & _).
  split_and!; [exact H1|exact H4|exact H3|exact Ht|exact Hr].
Defined.

(** C9.  Of all the code of the page, only [uploadFiles] and [loadSession]
    assign [currentSessionId]: any other method or handler, the poll
    [updateProcessingStatus] among them, leaves it as it finds it, in what
    it runs at once, in every call it starts, and in whatever it runs later
    on any answer handled in any state. *)
Theorem session_written_only_by_upload_and_load (c : Code) (a : App) :
  assigns_session c = false →
  Throughout keeps_session a (exec c a).
Proof.
  destruct c; simpl; try done; intros _;
    try (apply Throughout_ret; unfold keeps_session);
    auto using updateProcessingStatus_keeps, generateSummary_keeps, generateQuiz_keeps,
      saveSession_keeps, showHistory_keeps, handleFileSelection_session,
      displayProcessingStatus_session, stopStatusChecking_session.
  - unfold showProcessingSection.
    pose proof (updateProcessingStatus_keeps
                  (classList_remove_hidden "processingSection"
                     (classList_add_hidden "uploadSection" a))) as (H1 & H2 & H3).
    destruct (updateProcessingStatus _) as [[a1 started] t]. simpl in *.
    split_and!; [done| |constructor].
    apply Forall_app. split; [done|]. by constructor.
  - unfold on_visibilitychange.
    destruct (document_hidden a); [apply stopStatusChecking_session|].
    by destruct (_ && _).
Qed.

Lemma session_written_only_by_upload_and_load_witness :
  assigns_session UpdateProcessingStatus = false ∧
  Throughout keeps_session processing (updateProcessingStatus processing).
Proof.
  split; [reflexivity|].
  exact (session_written_only_by_upload_and_load UpdateProcessingStatus processing eq_refl).
Defined.

(** C10.  With no current session identifier (null, undefined or the empty
    string), [generateSummary], [generateQuiz] and [saveSession] return at
    once with the state untouched: no request, no toast, nothing awaited. *)
Theorem no_session_no_op (a : App) :
  truthy (currentSessionId a) = false →
  generateSummary a = ret a ∧ generateQuiz a = ret a ∧ saveSession a = ret a.
Proof.
  intros E. unfold generateSummary, generateQuiz, saveSession. by rewrite E.
Qed.

Lemma no_session_no_op_witness :
  truthy (currentSessionId (constructor page)) = false ∧
  generateSummary (constructor page) = ret (constructor page) ∧
  generateQuiz (constructor page) = ret (constructor page) ∧
  saveSession (constructor page) = ret (constructor page).
Proof.
  split; [reflexivity|].
  exact (no_session_no_op (constructor page) eq_refl).
Defined.

(** * Further properties of the code *)

Ltac since_is es :=
  rewrite (since_app _ _ es) by (simpl; rewrite <- ?app_assoc; reflexivity).

(** ** Closed forms of the rendering methods *)
Lemma handleFileSelection_nonempty files a :
  files ≠ [] →
  handleFileSelection files a
  = set_uploadBtn_disabled false (classList_remove_hidden "fileList" (set_fileList files a)).
Proof.
  intros Hf. unfold handleFileSelection.
  destruct files as [|f files]; [done|]. cbn [length Nat.eqb].
  rewrite foldl_fileList. unfold createFileItem. simpl. by rewrite list_fmap_id.
Qed.

Lemma handleFileSelection_eq files a :
  handleFileSelection files a
  = if (length files =? 0)%nat then a
    else set_uploadBtn_disabled false (classList_remove_hidden "fileList" (set_fileList files a)).
Proof.
  destruct files as [|f fs]; [done|]. by rewrite handleFileSelection_nonempty.
Qed.

Lemma displayProcessingStatus_eq status a :
  displayProcessingStatus status a
  = match get_files status with
    | Some files => (set_processingStatus (statusRow <$> files) a, None)
    | None =>
        (set_processingStatus [] a,
         Some (if is_null status then NullError "status" else TypeError "status.files"))
    end.
Proof.
  unfold displayProcessingStatus. destruct status; try done.
  simpl. by rewrite foldl_processingStatus.
Qed.

Lemma displayQuiz_eq questions a :
  displayQuiz questions a
  = match questions with
    | Some qs =>
        (classList_remove_hidden "quizResult"
           (set_quizContent
              (imap (λ index question, {| item_index := index; item_question := question |}) qs)
              a), None)
    | None => (set_quizContent [] a, Some (TypeError "questions"))
    end.
Proof. destruct questions; [apply displayQuiz_questions|done]. Qed.

Lemma displayHistory_eq sessions a :
  displayHistory sessions a
  = if is_null sessions then
      (set_historyList (SessionItems []) a, Some (NullError "sessions"))
    else if length_is_0 sessions then (set_historyList NoSavedSessions a, None)
    else
      match get_array sessions with
      | Some l => (set_historyList (SessionItems l) a, None)
      | None => (set_historyList (SessionItems []) a, Some (NotAFunction "sessions.forEach"))
      end.
Proof.
  unfold displayHistory. destruct (is_null sessions); [done|].
  destruct (length_is_0 sessions); [done|].
  destruct (get_array sessions) as [l|]; [|done].
  by rewrite (foldl_historyList _ []).
Qed.

(** ** File names *)

Lemma toLowerCase_app a b : toLowerCase (a +:+ b) = toLowerCase a +:+ toLowerCase b.
Proof. induction a as [|c a IH]; simpl; [done|]. by rewrite IH. Qed.

Lemma lower_idemp c : lower (lower c) = lower c.
Proof.
  destruct c as [[] [] [] [] [] [] [] []]; vm_compute; reflexivity.
Qed.

Lemma toLowerCase_idemp s : toLowerCase (toLowerCase s) = toLowerCase s.
Proof. induction s as [|c s IH]; simpl; [done|]. by rewrite lower_idemp, IH. Qed.

Lemma split_dot_nonempty s : split_dot s ≠ [].
Proof.
  induction s as [|c s IH]; simpl; [done|].
  destruct (Ascii.eqb c "."); [done|]. by destruct (split_dot s).
Qed.

Lemma split_dot_app a b :
  ∃ p l, split_dot (a +:+ String "." b) = (p :: l ++ split_dot b)%list.
Proof.
  induction a as [|c a (p & l & IH)]; simpl.
  - by exists "", [].
  - rewrite IH. destruct (Ascii.eqb c ".").
    + by exists "", (p :: l).
    + by exists (String c p), l.
Qed.

Lemma pop_split_dot_app a b : pop (split_dot (a +:+ String "." b)) = pop (split_dot b).
Proof.
  destruct (split_dot_app a b) as (p & l & ->). unfold pop.
  pose proof (split_dot_nonempty b).
  destruct (split_dot b) as [|q l'] using rev_ind; [done|].
  by rewrite app_comm_cons, app_assoc, !last_snoc.
Qed.

(** ** Stopping and starting the poll *)

Lemma stopStatusChecking_clears a t :
  statusCheckInterval a = Some t → t ∉ timers (stopStatusChecking a).
Proof.
  intros Ht. destruct (stopStatusChecking_spec a) as (_ & _ & _ & _ & H).
  rewrite Ht in H. destruct H as [_ ->]. rewrite list_elem_of_filter. naive_solver.
Qed.

Lemma stop_after_start a :
  next_timer a ∉ timers a →
  timers (stopStatusChecking (startStatusChecking a)) = timers a.
Proof.
  intros Hfresh. unfold stopStatusChecking, startStatusChecking. simpl.
  rewrite filter_app, filter_cons_False, filter_nil, app_nil_r by naive_solver.
  clear -Hfresh. induction (timers a) as [|x l IH]; [done|].
  rewrite filter_cons_True by set_solver. f_equal. apply IH. set_solver.
Qed.

Lemma overlay_hidden a : classList_contains_hidden "loadingOverlay" (hideLoadingOverlay a) = true.
Proof. apply contains_true. hid. set_solver. Qed.

(** ** Invariants of the event loop *)

Lemma Always_fetch_inv P k o a : Always P (Await_fetch k) → Throughout P a (k o a).
Proof. inversion 1; subst. by split_and!. Qed.

Lemma Always_json_inv P r k o a : Always P (Await_json r k) → Throughout P a (k o a).
Proof. inversion 1; subst. by split_and!. Qed.

Lemma pending_call P s st :
  pending P s → Forall (Always P) st.1.2 → Always P st.2 → pending P (call st s).
Proof.
  intros Hs H2 H3. destruct st as [[a started] t]. unfold pending, call. simpl in *.
  rewrite !Forall_app. split_and!; [done..|]. by constructor.
Qed.

Lemma pending_resume P s i st :
  pending P s → Forall (Always P) st.1.2 → Always P st.2 → pending P (resume i st s).
Proof.
  intros Hs H2 H3. destruct st as [[a started] t]. unfold pending, resume. simpl in *.
  rewrite Forall_app. split; [|done]. by apply Forall_insert.
Qed.

Lemma app_call st s : app (call st s) = st.1.1.
Proof. by destruct st as [[a started] t]. Qed.

Lemma app_resume i st s : app (resume i st s) = st.1.1.
Proof. by destruct st as [[a started] t]. Qed.

Section Invariant.
Context (I : App → Prop) (runs : Code → Prop).
Hypothesis browser : ∀ e a, I a → I (before e a).
Hypothesis code : ∀ c a, runs c → I a → Throughout (preserves I) a (exec c a).

Lemma handle_invariant s e :
  (∀ c, handler e = Some c → runs c) →
  I (app s) → pending (preserves I) s →
  I (app (handle s e)) ∧ pending (preserves I) (handle s e).
Proof.
  intros He Ha Hp.
  assert (Hcall : ∀ c, handler e = Some c →
            I (app (call (exec c (before e (app s))) s)) ∧
            pending (preserves I) (call (exec c (before e (app s))) s)).
  { intros c Hc.
    destruct (code c (before e (app s)) (He c Hc) (browser e _ Ha)) as (H1 & H2 & H3).
    split; [rewrite app_call; by apply H1, browser|by apply pending_call]. }
  assert (Hrun : ∀ c a', handler e = Some c → exec c (before e (app s)) = ret a' →
            I (app (run a' s)) ∧ pending (preserves I) (run a' s)).
  { intros c a' Hc E.
    destruct (code c (before e (app s)) (He c Hc) (browser e _ Ha)) as (H1 & _).
    rewrite E in H1. split; [by apply H1, browser|done]. }
  destruct e; simpl;
    try (by apply (Hcall _ eq_refl)); try (by eapply Hrun).
  - split; [by apply (browser (Input id v))|done].
  - case_bool_decide; [by apply (Hcall _ eq_refl)|done].
  - destruct (calls s !! i) as [[|k|r k]|] eqn:E; try done.
    apply (Forall_lookup_1 _ _ _ _ Hp) in E.
    destruct (Always_fetch_inv _ k o (app s) E) as (H1 & H2 & H3).
    split; [rewrite app_resume; by apply H1|by apply pending_resume].
  - destruct (calls s !! i) as [[|k|r k]|] eqn:E; try done.
    apply (Forall_lookup_1 _ _ _ _ Hp) in E.
    destruct (Always_json_inv _ r k (json r) (app s) E) as (H1 & H2 & H3).
    split; [rewrite app_resume; by apply H1|by apply pending_resume].
Qed.

Lemma handle_all_invariant es s :
  Forall (λ e, ∀ c, handler e = Some c → runs c) es →
  I (app s) → pending (preserves I) s →
  I (app (handle_all s es)) ∧ pending (preserves I) (handle_all s es).
Proof.
  unfold handle_all. revert s. induction es as [|e es IH]; intros s Hes Ha Hp; [done|].
  apply Forall_cons in Hes as [He Hes]. simpl.
  destruct (handle_invariant s e He Ha Hp). by apply IH.
Qed.
End Invariant.

Lemma timers_sound_frame a a' :
  timer_state a' = timer_state a → preserves timers_sound a a'.
Proof.
  unfold timer_state, preserves, timers_sound. intros [= -> -> ->]. done.
Qed.

Lemma timers_sound_stop a a' :
  timer_state a' = timer_state a → preserves timers_sound a (stopStatusChecking a').
Proof.
  unfold timer_state, preserves, timers_sound. intros [= E1 E2 E3] (H1 & H2 & H3).
  unfold stopStatusChecking. rewrite E1.
  destruct (statusCheckInterval a) as [t|]; simpl; [|by rewrite ?E1, ?E2, ?E3].
  rewrite E2, E3. split_and!; [done| |].
  - by apply NoDup_filter.
  - intros x [_ Hx]%list_elem_of_filter. auto.
Qed.

Lemma timers_sound_start a a' :
  timer_state a' = timer_state a → preserves timers_sound a (startStatusChecking a').
Proof.
  unfold timer_state, preserves, timers_sound. intros [= E1 E2 E3] (H1 & H2 & H3).
  unfold startStatusChecking. simpl. rewrite E2, E3. split_and!.
  - intros t [= <-]. set_solver.
  - apply NoDup_app. split_and!; [done| |apply NoDup_singleton].
    intros x Hx ->%list_elem_of_singleton. apply H3 in Hx. lia.
  - intros x [Hx | ->%list_elem_of_singleton]%elem_of_app; [apply H3 in Hx|]; lia.
Qed.

Lemma preserves_trans I a b c : preserves I a b → preserves I b c → preserves I a c.
Proof. unfold preserves. auto. Qed.

(** An invariant that only reads the timers, and that stopping the poll
    keeps, is kept by all the code that does not start the poll. *)
Section TimerInvariant.
Context (I : App → Prop).
Hypothesis frame : ∀ a a', timer_state a' = timer_state a → preserves I a a'.
Hypothesis stop :
  ∀ a a', timer_state a' = timer_state a → preserves I a (stopStatusChecking a').

Ltac kept :=
  first [ apply frame; reflexivity | apply stop; reflexivity ].

Lemma updateProcessingStatus_inv a :
  Throughout (preserves I) a (updateProcessingStatus a).
Proof.
  unfold updateProcessingStatus.
  destruct (truthy (currentSessionId a)); simpl; [|apply Throughout_ret; kept].
  split_and!; [kept|always|always].
  intros [r|e] a1; simpl; [destruct (ok r); simpl|]; try (apply Throughout_ret; kept).
  split_and!; [kept|always|always].
  intros [status|e] a2; simpl; [|apply Throughout_ret; kept].
  rewrite displayProcessingStatus_eq.
  destruct (get_files status); simpl; [|apply Throughout_ret; kept].
  case_bool_decide; apply Throughout_ret; kept.
Qed.

Lemma showProcessingSection_inv a :
  Throughout (preserves I) a (exec ShowProcessingSection a).
Proof.
  simpl. unfold showProcessingSection.
  set (a1 := classList_remove_hidden _ _).
  pose proof (updateProcessingStatus_inv a1) as (H1 & H2 & H3).
  destruct (updateProcessingStatus a1) as [[a2 started] t]. simpl in *.
  split_and!; [|apply Forall_app; split; [done|by constructor]|constructor].
  eapply preserves_trans; [|done]. by apply frame.
Qed.

Lemma generateSummary_inv a : Throughout (preserves I) a (generateSummary a).
Proof.
  unfold generateSummary.
  destruct (truthy (currentSessionId a)); simpl; [|apply Throughout_ret; kept].
  split_and!; [kept|always|always].
  intros [r|e] a1; simpl; [destruct (ok r); simpl|]; try (apply Throughout_ret; kept).
  split_and!; [kept|always|always].
  intros [summary|e] a2; simpl; [destruct (is_null summary)|]; apply Throughout_ret; kept.
Qed.

Lemma generateQuiz_inv a : Throughout (preserves I) a (generateQuiz a).
Proof.
  unfold generateQuiz.
  destruct (truthy (currentSessionId a)); simpl; [|apply Throughout_ret; kept].
  split_and!; [kept|always|always].
  intros [r|e] a1; simpl; [destruct (ok r); simpl|]; try (apply Throughout_ret; kept).
  split_and!; [kept|always|always].
  intros [quiz|e] a2; simpl; [|apply Throughout_ret; kept].
  destruct (is_null quiz); [apply Throughout_ret; kept|].
  rewrite displayQuiz_eq. destruct (get_questions quiz); simpl; apply Throughout_ret; kept.
Qed.

Lemma saveSession_inv a : Throughout (preserves I) a (saveSession a).
Proof.
  unfold saveSession.
  destruct (truthy (currentSessionId a)); simpl; [|apply Throughout_ret; kept].
  destruct (truthy (Some (trim (get_value "sessionName" a)))); simpl;
    [|apply Throughout_ret; kept].
  split_and!; [kept|always|always].
  intros [r|e] a1; simpl; [destruct (ok r); simpl|]; apply Throughout_ret; kept.
Qed.

Lemma showHistory_inv a : Throughout (preserves I) a (showHistory a).
Proof.
  unfold showHistory. split_and!; [kept|always|always].
  intros [r|e] a1; simpl; [destruct (ok r); simpl|]; try (apply Throughout_ret; kept).
  split_and!; [kept|always|always].
  intros [sessions|e] a2; simpl; [|apply Throughout_ret; kept].
  rewrite displayHistory_eq.
  destruct (is_null sessions); simpl; [apply Throughout_ret; kept|].
  destruct (length_is_0 sessions); simpl; [apply Throughout_ret; kept|].
  destruct (get_array sessions) as [l|]; simpl; apply Throughout_ret; kept.
Qed.

Lemma loadSession_check_inv sessionId a :
  Throughout (preserves I) a (loadSession_check sessionId a).
Proof.
  unfold loadSession_check. split_and!; [kept|always|always].
  intros [r|e] a1; simpl; [destruct (ok r); simpl|]; try (apply Throughout_ret; kept).
  split_and!; [kept|always|always].
  intros [status|e] a2; simpl; [|apply Throughout_ret; kept].
  destruct (is_null status); [apply Throughout_ret; kept|].
  case_bool_decide; apply Throughout_ret; kept.
Qed.

Lemma loadSession_inv sessionId a : Throughout (preserves I) a (loadSession sessionId a).
Proof.
  unfold loadSession.
  set (a0 := hideHistory _).
  pose proof (showProcessingSection_inv a0) as (H1 & H2 & _). simpl in *.
  destruct (showProcessingSection a0) as [a1 started]. simpl in *.
  pose proof (updateProcessingStatus_inv a1) as (H4 & H5 & H6).
  destruct (updateProcessingStatus a1) as [[a2 started'] t']. simpl in *.
  apply (andThen_Always (preserves I)).
  - intros x y z. apply preserves_trans.
  - done.
  - apply loadSession_check_inv.
  - apply (preserves_trans I a a0); [apply frame; reflexivity|].
    by apply (preserves_trans I a0 a1 a2).
  - apply Forall_app. by split.
Qed.

(** The code run by the events that neither submit the form nor change
    the visibility of the page. *)
Lemma handler_inv e c a :
  e ≠ Submit_uploadForm → (∀ h, e ≠ Visibilitychange h) →
  handler e = Some c → Throughout (preserves I) a (exec c a).
Proof.
  intros H1 H2 Hc. destruct e; simpl in *; try done; injection Hc as <-; simpl;
    auto using updateProcessingStatus_inv, generateSummary_inv, generateQuiz_inv,
      saveSession_inv, showHistory_inv, loadSession_inv;
    try (apply Throughout_ret; kept).
  - apply Throughout_ret. rewrite handleFileSelection_eq.
    destruct (length files =? 0)%nat; kept.
  - apply Throughout_ret. rewrite handleFileSelection_eq.
    destruct (length files =? 0)%nat; kept.
  - by edestruct H2.
Qed.

(** With the code that starts the poll. *)
Hypothesis start :
  ∀ a a', timer_state a' = timer_state a → preserves I a (startStatusChecking a').

Lemma uploadFiles_inv a : Throughout (preserves I) a (uploadFiles a).
Proof.
  unfold uploadFiles.
  destruct (length (fileInput_files a) =? 0)%nat; [apply Throughout_ret; kept|].
  split_and!; [kept|always|always].
  intros [r|e] a1; simpl; [destruct (ok r); simpl|]; try (apply Throughout_ret; kept).
  split_and!; [kept|always|always].
  intros [result|e] a2; simpl; [|apply Throughout_ret; kept].
  destruct (is_null result); [apply Throughout_ret; kept|].
  set (a3 := showToast _ _ _).
  pose proof (showProcessingSection_inv a3) as (H1 & H2 & H3). simpl in *.
  destruct (showProcessingSection a3) as [a4 started]. simpl in *.
  split_and!; [|done|constructor].
  apply (preserves_trans I a2 a3); [apply frame; reflexivity|].
  apply (preserves_trans I a3 a4); [done|].
  apply (preserves_trans I a4 (startStatusChecking a4)); [by apply start|].
  by apply frame.
Qed.

Lemma on_visibilitychange_inv a : preserves I a (on_visibilitychange a).
Proof.
  unfold on_visibilitychange.
  destruct (document_hidden a); [kept|]. destruct (_ && _); [by apply start|kept].
Qed.

Lemma every_handler_inv e c a :
  handler e = Some c → Throughout (preserves I) a (exec c a).
Proof.
  intros Hc.
  destruct e;
    try (by refine (handler_inv _ c a _ _ Hc); [discriminate|intros ?; discriminate]).
  - injection Hc as <-. apply uploadFiles_inv.
  - injection Hc as <-. apply Throughout_ret, on_visibilitychange_inv.
Qed.
End TimerInvariant.

Lemma no_poll_frame a a' : timer_state a' = timer_state a → preserves no_poll a a'.
Proof. unfold timer_state, preserves, no_poll. by intros [= -> -> _]. Qed.

Lemma no_poll_stop a a' :
  timer_state a' = timer_state a → preserves no_poll a (stopStatusChecking a').
Proof.
  unfold timer_state, preserves, no_poll. intros [= E1 E2 _] [H1 H2].
  unfold stopStatusChecking. rewrite E1, H1. by rewrite E1, E2.
Qed.

Lemma no_session_yet_step a a' es :
  currentSessionId a' = currentSessionId a →
  timer_state a' = timer_state a →
  same_sections a a' →
  log a' = (log a ++ es)%list →
  (∀ req, req ∈ requests es → req = GET "/saved-sessions") →
  preserves no_session_yet a a'.
Proof.
  unfold timer_state. intros Es [= Ei Et _] Hsec El Hreq (H1 & H2 & H3 & H4 & H5).
  split_and!; try congruence.
  - by rewrite (same_sections_phase a a').
  - intros req. rewrite El. unfold requests. rewrite omap_app, elem_of_app.
    intros [?|?]; auto.
Qed.

Ltac quiet :=
  eapply no_session_yet_step;
  [ reflexivity
  | reflexivity
  | intros ? ?; hid; set_solver
  | simpl; rewrite <- ?app_assoc; first [reflexivity | symmetry; apply app_nil_r]
  | simpl; set_solver ].

Lemma showHistory_quiet a : Throughout (preserves no_session_yet) a (showHistory a).
Proof.
  unfold showHistory. split_and!; [quiet|always|always].
  intros [r|e] a1; simpl; [destruct (ok r); simpl|].
  - split_and!; [quiet|always|always].
    intros [sessions|e] a2; simpl.
    + rewrite displayHistory_eq.
      destruct (is_null sessions); simpl; [apply Throughout_ret; quiet|].
      destruct (length_is_0 sessions); simpl; [apply Throughout_ret; quiet|].
      destruct (get_array sessions) as [l|]; simpl; apply Throughout_ret; quiet.
    + apply Throughout_ret; quiet.
  - apply Throughout_ret; quiet.
  - apply Throughout_ret; quiet.
Qed.

Lemma exec_quiet e c a :
  starts_session e = false → handler e = Some c →
  no_session_yet a → Throughout (preserves no_session_yet) a (exec c a).
Proof.
  intros He Hc Ha. pose proof Ha as (Hs & Hi & Ht & _).
  assert (Hf : truthy (currentSessionId a) = false) by by rewrite Hs.
  destruct e; simpl in *; try done; injection Hc as <-; simpl.
  - apply Throughout_ret. rewrite handleFileSelection_eq.
    destruct (length files =? 0)%nat; quiet.
  - apply Throughout_ret. rewrite handleFileSelection_eq.
    destruct (length files =? 0)%nat; quiet.
  - unfold generateSummary. rewrite Hf. apply Throughout_ret. quiet.
  - unfold generateQuiz. rewrite Hf. apply Throughout_ret. quiet.
  - unfold saveSession. rewrite Hf. apply Throughout_ret. quiet.
  - apply showHistory_quiet.
  - apply Throughout_ret. quiet.
  - unfold updateProcessingStatus. rewrite Hf. apply Throughout_ret. quiet.
  - apply Throughout_ret. unfold on_visibilitychange, stopStatusChecking.
    rewrite Hi, Hf. simpl. destruct (document_hidden a); quiet.
  - apply Throughout_ret. quiet.
Qed.


(** ** Running the event loop on symbolic input *)

(** Unfolds the handlers in [H], leaving the tests on strings and sets. *)
Ltac run_in H :=
  cbv [handle call run resume app calls boot constructor page uploadFiles showProcessingSection
       updateProcessingStatus startStatusChecking stopStatusChecking showResultsSection
       await_fetch await_json ret fst snd
       lookup list_lookup insert list_insert List.app length Nat.eqb negb ok json ok_response
       is_null get_session_id get_status get_files showToast emit fetch console_error
       hideLoadingOverlay showLoadingOverlay classList_add_hidden classList_remove_hidden
       setInterval clearInterval interpolate
       set_currentSessionId set_statusCheckInterval set_hidden set_fileInput_files
       set_uploadBtn_disabled set_fileList set_processingStatus set_timers set_next_timer set_log
       currentSessionId statusCheckInterval hidden value fileInput_files uploadBtn_disabled
       fileList processingStatus summaryContent quizContent historyList document_hidden
       timers next_timer log] in H.

(** * What the code shows beyond the specification *)

(** X1.  An upload of some files answered 2xx with a body that JSON reads:
    one POST /upload carries the files in order under the field files, with
    the overlay up.  A null body is reported as a failed upload and commits
    nothing.  Handling any other body stores its session_id (whatever it
    is), shows the processing section in place of the upload section, sets
    one interval and records its handle, resets the form (no file left, list
    hidden, button disabled) and hides the overlay; submitting again sends
    nothing.  With a session id that is a non-empty string, its status is
    requested at once; with none, or an empty one, the interval is set all
    the same and each tick returns without a request. *)
Theorem uploadFiles_success (a0 : App) (response : Response) (result : Body) (a a2 : App) :
  fileInput_files a0 ≠ [] →
  answers response result →
  let call := uploadFiles a0 in
  let st := on_fetch call (Resolved response) a in
  let st2 := on_json st a2 in
  let a' := state st2 in
  since a0 (state call)
  = [Fetch (POST "/upload" ((λ file, ("files", FormFile file)) <$> fileInput_files a0))] ∧
  classList_contains_hidden "loadingOverlay" (state call) = false ∧
  state st = a ∧
  (is_null result = true →
     upload_reported_failed a2 st2 ∧
     fileInput_files a' = fileInput_files a2 ∧
     classList_contains_hidden "loadingOverlay" a' = true) ∧
  (is_null result = false →
     st2.2 = Done ∧
     currentSessionId a' = get_session_id result ∧
     timers a' = (timers a2 ++ [next_timer a2])%list ∧
     statusCheckInterval a' = Some (next_timer a2) ∧
     classList_contains_hidden "uploadSection" a' = true ∧
     classList_contains_hidden "processingSection" a' = false ∧
     ("resultsSection" ∈ hidden a2 → phase a' = Some Processing) ∧
     classList_contains_hidden "loadingOverlay" a' = true ∧
     classList_contains_hidden "fileList" a' = true ∧
     uploadBtn_disabled a' = true ∧
     fileInput_files a' = [] ∧
     requests (since a' (state (uploadFiles a'))) = [] ∧
     (truthy (get_session_id result) = true →
        since a2 a' = [Toast "Files uploaded successfully!" "success";
                       Fetch (GET ("/status/" +:+ interpolate (get_session_id result)));
                       SetInterval (next_timer a2) 2000] ∧
        st2.1.2 = [(updateProcessingStatus a').2]) ∧
     (truthy (get_session_id result) = false →
        since a2 a' = [Toast "Files uploaded successfully!" "success";
                       SetInterval (next_timer a2) 2000] ∧
        st2.1.2 = [Done] ∧
        updateProcessingStatus a' = ret a')).
Proof.
  intros Hf [Hok Hj] call st st2 a'. subst a' st2 st call.
  unfold uploadFiles. destruct (fileInput_files a0) as [|f fs] eqn:E; [done|].
  cbn [length Nat.eqb]. unfold on_fetch, on_json, state. cbn [fst snd await_fetch].
  rewrite Hok. cbn [negb await_json fst snd]. rewrite Hj.
  split_and!.
  - by apply since_app.
  - apply contains_false. hid. set_solver.
  - done.
  - intros ->. split_and!; [apply uploadFiles_catch_spec|done|].
    apply contains_true. hid. set_solver.
  - intros ->.
    unfold showProcessingSection, updateProcessingStatus. simpl.
    destruct (truthy (get_session_id result)) eqn:Ht; simpl; rewrite ?Ht; simpl.
    + split_and!; try done.
      * apply contains_true. hid. set_solver.
      * apply contains_false. hid. set_solver.
      * intros Hr. apply phase_Processing. hid. set_solver.
      * apply contains_true. hid. set_solver.
      * apply contains_true. hid. set_solver.
      * by rewrite since_app with (es := [Toast "Please select files to upload" "error"]).
      * intros _. split; [|done].
        erewrite since_app; [done|]. simpl. by rewrite <- !app_assoc.
    + split_and!; try done.
      * apply contains_true. hid. set_solver.
      * apply contains_false. hid. set_solver.
      * intros Hr. apply phase_Processing. hid. set_solver.
      * apply contains_true. hid. set_solver.
      * apply contains_true. hid. set_solver.
      * by rewrite since_app with (es := [Toast "Please select files to upload" "error"]).
      * intros _. split; [|done].
        erewrite since_app; [done|]. simpl. by rewrite <- !app_assoc.
Qed.

Lemma uploadFiles_success_witness :
  let response := ok_response (UploadBody "s1") in
  let st := on_fetch (uploadFiles selected) (Resolved response) selected in
  fileInput_files selected ≠ [] ∧
  answers response (UploadBody "s1") ∧
  currentSessionId (state (on_json st selected)) = Some "s1" ∧
  statusCheckInterval (state (on_json st selected)) = Some (next_timer selected).
Proof.
  intros response st.
  assert (H1 : fileInput_files selected ≠ []) by (vm_compute; discriminate).
  assert (H2 : answers response (UploadBody "s1")) by (split; reflexivity).
  destruct (uploadFiles_success selected response (UploadBody "s1") selected selected H1 H2)
    as (_ & _ & _ & _ & Hs).
  destruct (Hs eq_refl) as (_ & Hs1 & _ & Hi & _).
  split_and!; [exact H1|exact H2|exact Hs1|exact Hi].
Defined.

(** X2.  Files dropped on the upload area are listed and enable the upload
    button like picked ones, but they are not put in the file input: with
    the input empty, submitting after a drop sends nothing and shows 'Please
    select files to upload', where submitting after a pick posts the
    files. *)
Theorem dropped_files_are_not_uploaded (s : Sys) (files : list File) :
  fileInput_files (app s) = [] → files ≠ [] →
  let dropped := handle s (Drop files) in
  let picked := handle s (Change_fileInput files) in
  fileList (app dropped) = files ∧
  uploadBtn_disabled (app dropped) = false ∧
  fileList (app picked) = files ∧
  uploadBtn_disabled (app picked) = false ∧
  requests (since (app dropped) (app (handle dropped Submit_uploadForm))) = [] ∧
  error_toasts (since (app dropped) (app (handle dropped Submit_uploadForm)))
  = ["Please select files to upload"] ∧
  requests (since (app picked) (app (handle picked Submit_uploadForm)))
  = [POST "/upload" ((λ file, ("files", FormFile file)) <$> files)].
Proof.
  intros He Hf. simpl. unfold run, call.
  rewrite !handleFileSelection_nonempty by done. simpl.
  unfold uploadFiles. simpl. rewrite He. simpl.
  destruct files as [|f fs]; [done|]. simpl.
  split_and!; try done.
  - by since_is [Toast "Please select files to upload" "error"].
  - by since_is [Toast "Please select files to upload" "error"].
  - by since_is [Fetch (POST "/upload" ((λ file, ("files", FormFile file)) <$> f :: fs))].
Qed.

Lemma dropped_files_are_not_uploaded_witness :
  fileInput_files (app boot) = [] ∧ [doc_pdf] ≠ [] ∧
  requests (since (app (handle boot (Drop [doc_pdf])))
              (app (handle (handle boot (Drop [doc_pdf])) Submit_uploadForm))) = [].
Proof.
  assert (H1 : fileInput_files (app boot) = []) by reflexivity.
  assert (H2 : [doc_pdf] ≠ []) by discriminate.
  split_and!; [exact H1|exact H2|].
  exact (proj1 (proj2 (proj2 (proj2 (proj2
    (dropped_files_are_not_uploaded boot [doc_pdf] H1 H2)))))).
Defined.

(** X3.  [handleFileSelection] ignores an empty selection altogether.  A
    non-empty one replaces the list by one item per file, in order, shows the
    list and enables the upload button, whatever was selected before; it
    touches neither the file input nor the log. *)
Theorem handleFileSelection_spec (files : list File) (a : App) :
  let a' := handleFileSelection files a in
  (files = [] → a' = a) ∧
  (files ≠ [] →
     fileList a' = files ∧
     classList_contains_hidden "fileList" a' = false ∧
     uploadBtn_disabled a' = false ∧
     fileInput_files a' = fileInput_files a ∧
     log a' = log a ∧
     ∀ earlier, handleFileSelection files (handleFileSelection earlier a) = a').
Proof.
  simpl. split.
  - by intros ->.
  - intros Hf. rewrite handleFileSelection_nonempty by done. split_and!; try done.
    + apply contains_false. hid. set_solver.
    + intros earlier. destruct earlier as [|e earlier].
      * by rewrite handleFileSelection_nonempty.
      * rewrite !handleFileSelection_nonempty by done.
        unfold set_uploadBtn_disabled, classList_remove_hidden, set_hidden, set_fileList.
        simpl. f_equal. set_solver.
Qed.

Lemma handleFileSelection_spec_witness :
  [doc_pdf] ≠ [] ∧
  fileList (handleFileSelection [doc_pdf] (app boot)) = [doc_pdf] ∧
  uploadBtn_disabled (handleFileSelection [doc_pdf] (app boot)) = false.
Proof.
  assert (H : [doc_pdf] ≠ []) by discriminate.
  destruct (proj2 (handleFileSelection_spec [doc_pdf] (app boot)) H) as (H1 & _ & H2 & _).
  split_and!; [exact H|exact H1|exact H2].
Defined.

(** X4.  The icon of a file depends only on what follows its last dot,
    compared in lower case (the whole name when it has no dot), and is one of
    five. *)
Theorem getFileIcon_extension (base rest : string) :
  getFileIcon (base +:+ "." +:+ rest) = getFileIcon (toLowerCase rest) ∧
  getFileIcon (toLowerCase rest) = getFileIcon rest ∧
  icon_color (getFileIcon rest) ∈ ["pdf"; "docx"; "pptx"; "audio"; "text-gray-400"].
Proof.
  split_and!.
  - unfold getFileIcon. rewrite toLowerCase_idemp, !toLowerCase_app.
    change (toLowerCase "." +:+ toLowerCase rest) with (String "." (toLowerCase rest)).
    by rewrite pop_split_dot_app.
  - unfold getFileIcon. by rewrite toLowerCase_idemp.
  - unfold getFileIcon. repeat case_match; simpl; set_solver.
Qed.

(** X5.  [getStatusClass] answers one of the four badge classes: the status
    itself when it is one of them, pending for anything else. *)
Theorem getStatusClass_known (s : string) :
  getStatusClass s ∈ ["pending"; "processing"; "completed"; "failed"] ∧
  (s ∈ ["pending"; "processing"; "completed"; "failed"] → getStatusClass s = s) ∧
  (s ∉ ["pending"; "processing"; "completed"; "failed"] → getStatusClass s = "pending").
Proof.
  unfold getStatusClass.
  destruct (String.eqb_spec s "pending") as [->|H1]; [set_solver|].
  destruct (String.eqb_spec s "processing") as [->|H2]; [set_solver|].
  destruct (String.eqb_spec s "completed") as [->|H3]; [set_solver|].
  destruct (String.eqb_spec s "failed") as [->|H4]; [set_solver|].
  split_and!; set_solver.
Qed.

Lemma getStatusClass_known_witness :
  "failed" ∈ ["pending"; "processing"; "completed"; "failed"] ∧
  getStatusClass "failed" = "failed" ∧
  ("queued" ∉ ["pending"; "processing"; "completed"; "failed"]) ∧
  getStatusClass "queued" = "pending".
Proof.
  assert (H1 : "failed" ∈ ["pending"; "processing"; "completed"; "failed"])
    by (apply (bool_decide_unpack _); vm_compute; exact I).
  assert (H2 : "queued" ∉ ["pending"; "processing"; "completed"; "failed"])
    by (apply (bool_decide_unpack _); vm_compute; exact I).
  destruct (getStatusClass_known "failed") as (_ & Hk & _).
  destruct (getStatusClass_known "queued") as (_ & _ & Hu).
  split_and!; [exact H1|exact (Hk H1)|exact H2|exact (Hu H2)].
Defined.

(** X6.  [displayProcessingStatus] draws the list anew: one row per file of
    the status, in order, and nothing of what was shown before, so that
    drawing after any other drawing gives the same page; nothing but the
    list changes.  On a body without files the list is left empty and an
    exception is thrown. *)
Theorem displayProcessingStatus_replaces (status : Body) (a : App) :
  let r := displayProcessingStatus status a in
  match get_files status with
  | Some files =>
      r.2 = None ∧
      processingStatus r.1 = statusRow <$> files ∧
      length (processingStatus r.1) = length files
  | None => (∃ error, r.2 = Some error) ∧ processingStatus r.1 = []
  end ∧
  set_processingStatus (processingStatus a) r.1 = a ∧
  ∀ earlier, displayProcessingStatus status (displayProcessingStatus earlier a).1 = r.
Proof.
  simpl. split_and!.
  - rewrite displayProcessingStatus_eq. destruct (get_files status) as [files|]; simpl.
    + split_and!; [done..|]. by rewrite length_fmap.
    + split; [by eexists|done].
  - rewrite displayProcessingStatus_eq.
    destruct (get_files status); unfold set_processingStatus; simpl; apply App_eta.
  - intros earlier. rewrite !displayProcessingStatus_eq.
    by destruct (get_files status), (get_files earlier).
Qed.



(** X8.  [stopStatusChecking] clears the recorded interval and nothing else:
    it forgets the handle, removes that interval only, adds none, and doing
    it twice is doing it once.  Starting the poll and stopping it leaves the
    active intervals as they were, when the new handle was not in use. *)
Theorem stop_start_timers (a : App) :
  stopStatusChecking (stopStatusChecking a) = stopStatusChecking a ∧
  statusCheckInterval (stopStatusChecking a) = None ∧
  (∀ t, statusCheckInterval a = Some t → t ∉ timers (stopStatusChecking a)) ∧
  (∀ t, t ∈ timers (stopStatusChecking a) → t ∈ timers a) ∧
  (next_timer a ∉ timers a →
     timers (stopStatusChecking (startStatusChecking a)) = timers a ∧
     statusCheckInterval (stopStatusChecking (startStatusChecking a)) = None).
Proof.
  split_and!.
  - unfold stopStatusChecking at 1.
    by destruct (stopStatusChecking_spec a) as (_ & _ & _ & -> & _).
  - apply stopStatusChecking_spec.
  - apply stopStatusChecking_clears.
  - intros t. destruct (stopStatusChecking_spec a) as (_ & _ & _ & _ & H).
    destruct (statusCheckInterval a); destruct H as [_ ->]; [|done].
    rewrite list_elem_of_filter. naive_solver.
  - intros Hfresh. split; [by apply stop_after_start|done].
Qed.

Lemma stop_start_timers_witness :
  (next_timer processing ∉ timers processing) ∧
  timers (stopStatusChecking (startStatusChecking processing)) = timers processing.
Proof.
  assert (H : next_timer processing ∉ timers processing)
    by (apply (bool_decide_unpack _); vm_compute; exact I).
  destruct (stop_start_timers processing) as (_ & _ & _ & _ & Hs).
  split; [exact H|exact (proj1 (Hs H))].
Defined.

(** X9.  The visibility handler.  Hiding the page clears the recorded
    interval and sends nothing.  Showing it starts one new interval when a
    session is set and the processing section is displayed, and does nothing
    otherwise, in the Results phase in particular.  In the Processing phase of
    a session polled by one recorded interval, hiding leaves no interval and
    showing again leaves exactly one, recorded, in the same phase. *)
Theorem visibilitychange_spec (a : App) :
  let hide := on_visibilitychange (set_document_hidden true a) in
  let show := on_visibilitychange (set_document_hidden false a) in
  statusCheckInterval hide = None ∧
  (∀ t, statusCheckInterval a = Some t → t ∉ timers hide) ∧
  requests (since a hide) = [] ∧
  (truthy (currentSessionId a) = true →
   classList_contains_hidden "processingSection" a = false →
     timers show = (timers a ++ [next_timer a])%list ∧
     statusCheckInterval show = Some (next_timer a)) ∧
  (truthy (currentSessionId a) = false ∨ classList_contains_hidden "processingSection" a = true →
     show = set_document_hidden false a) ∧
  (phase a = Some Results → timers show = timers a) ∧
  (∀ t, truthy (currentSessionId a) = true → phase a = Some Processing →
        statusCheckInterval a = Some t → timers a = [t] →
        let back := on_visibilitychange (set_document_hidden false hide) in
        timers hide = [] ∧
        timers back = [next_timer a] ∧
        statusCheckInterval back = Some (next_timer a) ∧
        phase back = Some Processing).
Proof.
  simpl. unfold on_visibilitychange, classList_contains_hidden. simpl.
  pose proof (stopStatusChecking_spec (set_document_hidden true a)) as (Hs & Hh & _ & Hi & Hl).
  pose proof (stopStatusChecking_clears (set_document_hidden true a)) as Hn.
  simpl in *.
  split_and!.
  - done.
  - done.
  - destruct (statusCheckInterval a); destruct Hl as [Hl _].
    + by rewrite (since_app a _ [ClearInterval p]).
    + by rewrite since_same_log.
  - intros -> ->. simpl. done.
  - intros [-> | ->]; simpl; [done|]. by rewrite andb_false_r.
  - intros Hp. apply phase_Results in Hp as (_ & Hp & _).
    rewrite (bool_decide_eq_true_2 _ Hp). simpl. by rewrite andb_false_r.
  - intros t Ht Hp Hi' Ht'. rewrite Hi' in Hl. destruct Hl as [Hl Htm].
    rewrite Ht' in Htm. rewrite filter_cons_False, filter_nil in Htm by naive_solver.
    rewrite Hs, Ht. apply phase_Processing in Hp as Hp'. destruct Hp' as (_ & Hp' & _).
    rewrite Hh, (bool_decide_eq_false_2 _ Hp'). simpl.
    assert (Hnt : next_timer (stopStatusChecking (set_document_hidden true a)) = next_timer a).
    { unfold stopStatusChecking. simpl. by rewrite Hi'. }
    rewrite Htm, Hnt. split_and!; try done.
    rewrite <- Hp. apply same_sections_phase. intros id _. simpl. by rewrite Hh.
Qed.

Lemma visibilitychange_spec_witness :
  truthy (currentSessionId processing) = true ∧
  phase processing = Some Processing ∧
  statusCheckInterval processing = Some 1%positive ∧
  timers processing = [1%positive] ∧
  timers (on_visibilitychange (set_document_hidden true processing)) = [] ∧
  timers (on_visibilitychange
            (set_document_hidden false
               (on_visibilitychange (set_document_hidden true processing))))
  = [next_timer processing].
Proof.
  assert (H1 : truthy (currentSessionId processing) = true) by (vm_compute; reflexivity).
  assert (H2 : phase processing = Some Processing) by (vm_compute; reflexivity).
  assert (H3 : statusCheckInterval processing = Some 1%positive) by (vm_compute; reflexivity).
  assert (H4 : timers processing = [1%positive]) by (vm_compute; reflexivity).
  destruct (visibilitychange_spec processing) as (_ & _ & _ & _ & _ & _ & Hr).
  destruct (Hr 1%positive H1 H2 H3 H4) as (Hh & Hb & _).
  split_and!; [exact H1|exact H2|exact H3|exact H4|exact Hh|exact Hb].
Defined.

(** X10.  With the session sid, [generateSummary] and [generateQuiz] send
    GET /summary/sid?summary_type= and GET /quiz/sid?question_count=
    followed by the value selected on the page.  A 2xx summary is displayed
    as its content; a 2xx quiz is displayed as one block per question
    received, numbered from 0 in order, however many were asked for.
    Neither sends anything more, and handling the same answer again leaves
    the display as it is. *)
Theorem generate_requests (a0 : App) (sid : string) :
  currentSessionId a0 = Some sid → sid ≠ "" →
  since a0 (state (generateSummary a0))
  = [Fetch (GET ("/summary/" +:+ sid +:+ "?summary_type=" +:+ get_value "summaryType" a0))] ∧
  since a0 (state (generateQuiz a0))
  = [Fetch (GET ("/quiz/" +:+ sid +:+ "?question_count=" +:+ get_value "questionCount" a0))] ∧
  (∀ response content a a2,
     answers response (SummaryBody content) →
     let st := on_fetch (generateSummary a0) (Resolved response) a in
     summaryContent (state (on_json st a2)) = content ∧
     requests (since a2 (state (on_json st a2))) = [] ∧
     results_display (state (on_json st (state (on_json st a2))))
     = results_display (state (on_json st a2))) ∧
  (∀ response questions a a2,
     answers response (QuizBody questions) →
     let st := on_fetch (generateQuiz a0) (Resolved response) a in
     length (quizContent (state (on_json st a2))) = length questions ∧
     (∀ i q, questions !! i = Some q →
             quizContent (state (on_json st a2)) !! i
             = Some {| item_index := i; item_question := q |}) ∧
     requests (since a2 (state (on_json st a2))) = [] ∧
     results_display (state (on_json st (state (on_json st a2))))
     = results_display (state (on_json st a2))).
Proof.
  intros Hs Hne. apply truthy_Some in Hne as Ht.
  unfold generateSummary, generateQuiz. rewrite Hs, Ht. simpl. rewrite Hs. simpl.
  unfold on_fetch, on_json, state. simpl. split_and!.
  - apply since_app. reflexivity.
  - apply since_app. reflexivity.
  - intros r content a a2 [Hok Hj]. rewrite Hok. simpl. rewrite Hj. simpl.
    split_and!; [done|by rewrite since_same_log|].
    apply results_display_frame; try done. intros id Hid. hid. set_solver.
  - intros r questions a a2 [Hok Hj]. rewrite Hok. simpl. rewrite Hj.
    cbv beta iota. cbn [get_questions]. rewrite !displayQuiz_questions. simpl. split_and!.
    + by rewrite length_imap.
    + intros i q Hq. by rewrite list_lookup_imap, Hq.
    + by rewrite since_same_log.
    + apply results_display_frame; try done. intros id Hid. hid. set_solver.
Qed.

Lemma generate_requests_witness :
  currentSessionId processing = Some "s1" ∧
  since processing (state (generateQuiz processing))
  = [Fetch (GET ("/quiz/" +:+ "s1" +:+ "?question_count="
                   +:+ get_value "questionCount" processing))].
Proof.
  assert (H1 : currentSessionId processing = Some "s1") by (vm_compute; reflexivity).
  assert (H2 : "s1" ≠ "") by discriminate.
  split; [exact H1|].
  exact (proj1 (proj2 (generate_requests processing "s1" H1 H2))).
Defined.

(** X11.  The loading overlay of [uploadFiles], [generateSummary] and
    [generateQuiz] is shown when the call sends its request and is hidden
    when the call ends, whatever the fetch and the body settle to.  It is one
    element for all the calls: when a summary and a quiz are both requested
    and the summary's fetch fails, the overlay is hidden while the quiz's
    request is still out. *)
Theorem loadingOverlay_hidden_at_end (a0 : App) :
  (fileInput_files a0 ≠ [] → overlay_until_done (uploadFiles a0)) ∧
  (truthy (currentSessionId a0) = true →
     overlay_until_done (generateSummary a0) ∧
     overlay_until_done (generateQuiz a0) ∧
     ∀ cs o, failed o = true →
       let s := {| app := a0; calls := cs |} in
       let s1 := handle (handle s Click_generateSummaryBtn) Click_generateQuizBtn in
       let s2 := handle s1 (Fetch_settles (length cs) o) in
       classList_contains_hidden "loadingOverlay" (app s1) = false ∧
       classList_contains_hidden "loadingOverlay" (app s2) = true ∧
       calls s2 !! length cs = Some Done ∧
       ∃ k, calls s2 !! S (length cs) = Some (Await_fetch k)).
Proof.
  split.
  - intros Hf. unfold overlay_until_done, uploadFiles.
    destruct (fileInput_files a0) as [|f fs]; [done|]. cbn [length Nat.eqb].
    unfold on_fetch, on_json, state. cbn [fst snd await_fetch fetch emit].
    split; [apply contains_false; hid; set_solver|].
    intros [r|e] a a2; simpl; [destruct (ok r); simpl|]; try apply overlay_hidden.
    split; [done|]. destruct (json r) as [result|e]; simpl; [|split; [done|apply overlay_hidden]].
    destruct (is_null result); simpl; [split; [done|apply overlay_hidden]|].
    destruct (showProcessingSection _) as [a3 started]. simpl.
    split; [done|apply overlay_hidden].
  - intros Ht. split_and!.
    + unfold overlay_until_done, generateSummary. rewrite Ht. simpl.
      unfold on_fetch, on_json, state. simpl. split; [apply contains_false; hid; set_solver|].
      intros [r|e] a a2; simpl; [destruct (ok r); simpl|]; try apply overlay_hidden.
      split; [done|]. destruct (json r) as [summary|e]; simpl; [destruct (is_null summary)|];
        simpl; (split; [done|apply overlay_hidden]).
    + unfold overlay_until_done, generateQuiz. rewrite Ht. simpl.
      unfold on_fetch, on_json, state. simpl. split; [apply contains_false; hid; set_solver|].
      intros [r|e] a a2; simpl; [destruct (ok r); simpl|]; try apply overlay_hidden.
      split; [done|]. destruct (json r) as [quiz|e]; simpl; [|split; [done|apply overlay_hidden]].
      destruct (is_null quiz); simpl; [split; [done|apply overlay_hidden]|].
      destruct (displayQuiz (get_questions quiz) a2) as [a3 [err|]]; simpl;
        (split; [done|apply overlay_hidden]).
    + intros cs o Ho. simpl.
      destruct (generateSummary a0) as [[a1 sp1] t1] eqn:E1.
      unfold generateSummary in E1. rewrite Ht in E1. simpl in E1.
      injection E1 as <- <- <-. simpl.
      match goal with
      | |- context [generateQuiz ?x] => destruct (generateQuiz x) as [[a2 sp2] t2] eqn:E2
      end.
      unfold generateQuiz in E2. simpl in E2. rewrite Ht in E2. simpl in E2.
      injection E2 as <- <- <-. simpl.
      rewrite <- app_assoc. simpl.
      rewrite list_lookup_middle by done.
      assert (Hins : ∀ x y : Async,
                <[length cs:=Done]> (cs ++ [x; y])%list = (cs ++ [Done; y])%list).
      { intros x y. rewrite insert_app_r_alt by done. by rewrite Nat.sub_diag. }
      split; [apply contains_false; hid; set_solver|].
      destruct o as [r|e]; simpl in Ho; rewrite ?Ho; simpl; rewrite Hins, app_nil_r.
      all: split_and!; [apply overlay_hidden| |eexists].
      all: first [ by rewrite list_lookup_middle
                 | rewrite lookup_app_r by lia;
                   by replace (S (length cs) - length cs) with 1 by lia ].
Qed.

Lemma loadingOverlay_hidden_at_end_witness :
  fileInput_files selected ≠ [] ∧
  truthy (currentSessionId processing) = true ∧
  overlay_until_done (uploadFiles selected) ∧
  overlay_until_done (generateQuiz processing).
Proof.
  assert (H1 : fileInput_files selected ≠ []) by (vm_compute; discriminate).
  assert (H2 : truthy (currentSessionId processing) = true) by (vm_compute; reflexivity).
  split_and!; [exact H1|exact H2| |].
  - exact (proj1 (loadingOverlay_hidden_at_end selected) H1).
  - exact (proj1 (proj2 (proj2 (loadingOverlay_hidden_at_end processing) H2))).
Defined.

(** X12.  A save that was sent (session set, name not blank): a 2xx answer
    shows 'Session saved successfully!' and empties the name field; a
    rejected fetch or another answer shows 'Failed to save session' and
    leaves the fields as they were.  The body is never read and nothing more
    is sent. *)
Theorem saveSession_outcome (a0 : App) (sid : string) (o : Outcome Response) (a : App) :
  currentSessionId a0 = Some sid → sid ≠ "" →
  trim (get_value "sessionName" a0) ≠ "" →
  let st := on_fetch (saveSession a0) o a in
  returned st ∧
  requests (since a (state st)) = [] ∧
  (failed o = false →
     since a (state st) = [Toast "Session saved successfully!" "success"] ∧
     get_value "sessionName" (state st) = "") ∧
  (failed o = true →
     error_toasts (since a (state st)) = ["Failed to save session"] ∧
     value (state st) = value a).
Proof.
  intros Hs Hne Hn. simpl. unfold saveSession. rewrite Hs.
  apply truthy_Some in Hne as ->. apply truthy_Some in Hn as ->. simpl.
  unfold on_fetch, state. simpl.
  destruct o as [r|e]; simpl; [destruct (ok r); simpl|].
  - split_and!; auto using returned_ret; try done.
    + by rewrite since_app with (es := [Toast "Session saved successfully!" "success"]).
    + intros _. split; [by apply since_app|].
      unfold get_value, put_value. simpl. by rewrite lookup_insert_eq.
  - rewrite since_app with (es := [ConsoleError "Save session error:"
                                     {| message := "Failed to save session" |};
                                   Toast "Failed to save session" "error"]);
      [|simpl; by rewrite <- app_assoc].
    split_and!; auto using returned_ret; done.
  - rewrite since_app with (es := [ConsoleError "Save session error:" e;
                                   Toast "Failed to save session" "error"]);
      [|simpl; by rewrite <- app_assoc].
    split_and!; auto using returned_ret; done.
Qed.

Lemma saveSession_outcome_witness :
  currentSessionId named = Some "s1" ∧
  trim (get_value "sessionName" named) ≠ "" ∧
  get_value "sessionName"
    (state (on_fetch (saveSession named) (Resolved (ok_response OtherBody)) named)) = "".
Proof.
  assert (H1 : currentSessionId named = Some "s1") by (vm_compute; reflexivity).
  assert (H2 : "s1" ≠ "") by discriminate.
  assert (H3 : trim (get_value "sessionName" named) ≠ "") by (vm_compute; discriminate).
  destruct (saveSession_outcome named "s1" (Resolved (ok_response OtherBody)) named H1 H2 H3)
    as (_ & _ & Hok & _).
  split_and!; [exact H1|exact H3|exact (proj2 (Hok eq_refl))].
Defined.

(** X13.  [showHistory] asks for /saved-sessions whether or not a session is
    set.  On a 2xx answer the history overlay opens when the body is an
    array, listing the sessions in order or saying that there is none, and
    when the body is another value whose length is 0 (the empty string, an
    object with length 0), saying that there is none.  On null or any other
    body, and on any failure, it shows 'Failed to load history' and leaves
    the overlay as it was.  The three sections, hence the phase, are never
    touched. *)
Theorem showHistory_spec (a0 : App) (o : Outcome Response) (a a2 : App) :
  let call := showHistory a0 in
  let st := on_fetch call o a in
  let st2 := on_json st a2 in
  let opens content :=
    classList_contains_hidden "historyModal" (state st2) = false ∧
    historyList (state st2) = content ∧
    since a2 (state st2) = [] ∧
    same_sections a2 (state st2) in
  let fails :=
    error_toasts (since a2 (state st2)) = ["Failed to load history"] ∧
    hidden (state st2) = hidden a2 in
  since a0 (state call) = [Fetch (GET "/saved-sessions")] ∧
  hidden (state call) = hidden a0 ∧
  hidden (state st) = hidden a ∧
  (failed o = true →
     returned st ∧ error_toasts (since a (state st)) = ["Failed to load history"]) ∧
  (∀ response, o = Resolved response → ok response = true →
     state st = a ∧ returned st2 ∧
     requests (since a2 (state st2)) = [] ∧
     match json response with
     | Resolved (SessionsBody []) | Resolved (LengthBody 0) | Resolved (StringBody "") =>
         opens NoSavedSessions
     | Resolved (SessionsBody sessions) => opens (SessionItems sessions)
     | _ => fails
     end).
Proof.
  simpl. unfold showHistory, on_fetch, on_json, state. simpl. split_and!; try done.
  - by since_is [Fetch (GET "/saved-sessions")].
  - destruct o as [r|e]; simpl; [destruct (ok r)|]; done.
  - destruct o as [r|e]; simpl; intros Ho; [rewrite Ho; simpl|].
    + split; auto using returned_ret.
      by since_is [ConsoleError "History load error:" {| message := "Failed to load history" |};
                   Toast "Failed to load history" "error"].
    + split; auto using returned_ret.
      by since_is [ConsoleError "History load error:" e;
                   Toast "Failed to load history" "error"].
  - intros r -> Hok. rewrite Hok. simpl. split; [done|].
    assert (Hopen : ∀ content,
              let a' := classList_remove_hidden "historyModal" (set_historyList content a2) in
              returned (ret a') ∧ requests (since a2 a') = [] ∧
              classList_contains_hidden "historyModal" a' = false ∧
              historyList a' = content ∧ since a2 a' = [] ∧ same_sections a2 a').
    { intros content. simpl. rewrite since_same_log by done.
      split_and!; auto using returned_ret.
      - apply contains_false. hid. set_solver.
      - intros id Hid. hid. set_solver. }
    assert (Hfail : ∀ error content,
              let a' := showHistory_catch error (set_historyList content a2) in
              returned (ret a') ∧ requests (since a2 a') = [] ∧
              error_toasts (since a2 a') = ["Failed to load history"] ∧
              hidden a' = hidden a2).
    { intros error content. simpl.
      since_is [ConsoleError "History load error:" error;
                Toast "Failed to load history" "error"].
      split_and!; auto using returned_ret. }
    destruct (json r) as [sessions|e]; simpl; [|apply Hfail].
    rewrite displayHistory_eq.
    destruct sessions as [sid|s files|c|qs|[|x l]| |s|[|n]|[|c s]|]; simpl;
      first [ apply Hfail | apply Hopen ].
Qed.

Lemma showHistory_spec_witness :
  failed (Resolved server_error) = true ∧
  error_toasts (since processing
                  (state (on_fetch (showHistory processing) (Resolved server_error) processing)))
  = ["Failed to load history"].
Proof.
  assert (H : failed (Resolved server_error) = true) by reflexivity.
  destruct (showHistory_spec processing (Resolved server_error) processing processing)
    as (_ & _ & _ & Hf & _).
  split; [exact H|exact (proj2 (Hf H))].
Defined.

(** X14.  Whatever happens on the page, in any order: the handle recorded in
    [statusCheckInterval] is always an active interval, no handle is active
    twice, and the next handle is never in use, so that stopping the poll
    right after starting it always gives back the intervals there were. *)
Theorem timers_always_sound (es : list Event) :
  let a := app (handle_all boot es) in
  timers_sound a ∧
  (next_timer a ∉ timers a) ∧
  timers (stopStatusChecking (startStatusChecking a)) = timers a.
Proof.
  simpl.
  assert (H : timers_sound (app (handle_all boot es))).
  { apply (handle_all_invariant timers_sound (λ c, ∃ e, handler e = Some c)).
    - intros e a. destruct e; done.
    - intros c a [e He] _.
      by apply (every_handler_inv timers_sound timers_sound_frame timers_sound_stop
                  timers_sound_start e).
    - apply Forall_forall. intros e _ c Hc. by exists e.
    - split_and!; [done|constructor|]. simpl. intros t Ht. by apply elem_of_nil in Ht.
    - constructor. }
  assert (Hn : next_timer (app (handle_all boot es)) ∉ timers (app (handle_all boot es))).
  { intros Hin. apply H in Hin. lia. }
  split_and!; [done..|]. by apply stop_after_start.
Qed.

(** X15.  As long as the form is not submitted and no saved session is
    viewed, whatever else happens: no session is set, no interval is active,
    the page stays in the Upload phase, and the only requests ever sent ask
    for the list of saved sessions. *)
Theorem no_session_no_traffic (es : list Event) :
  Forall (λ e, starts_session e = false) es →
  no_session_yet (app (handle_all boot es)).
Proof.
  intros Hes.
  apply (handle_all_invariant no_session_yet
           (λ c, ∃ e, starts_session e = false ∧ handler e = Some c)).
  - intros e a (H1 & H2 & H3 & H4 & H5). by destruct e.
  - intros c a (e & He & Hc) Ha. by eapply exec_quiet.
  - eapply Forall_impl; [done|]. simpl. intros e He c Hc. eauto.
  - split_and!; [done..|by vm_compute|].
    intros req Hreq. by apply elem_of_nil in Hreq.
  - constructor.
Qed.

Lemma no_session_no_traffic_witness :
  let es := [Click_generateSummaryBtn; Click_saveSessionBtn; Click_historyBtn; Interval 1;
             Visibilitychange true; Visibilitychange false; Drop [doc_pdf]] in
  Forall (λ e, starts_session e = false) es ∧
  no_session_yet (app (handle_all boot es)).
Proof.
  intros es.
  assert (H : Forall (λ e, starts_session e = false) es) by (repeat constructor).
  split; [exact H|exact (no_session_no_traffic es H)].
Defined.

(** X16.  Viewing saved sessions never starts the poll: as long as the form
    is not submitted and the page's visibility does not change, no interval
    is ever active or recorded, even while a viewed session is still
    processing. *)
Theorem viewing_never_polls (es : list Event) :
  Forall (λ e, starts_poll e = false) es →
  let a := app (handle_all boot es) in
  statusCheckInterval a = None ∧ timers a = [].
Proof.
  intros Hes.
  apply (handle_all_invariant no_poll (λ c, ∃ e, starts_poll e = false ∧ handler e = Some c)).
  - intros e a HI. by destruct e.
  - intros c a (e & He & Hc) _.
    apply (handler_inv no_poll no_poll_frame no_poll_stop e); try done.
    + by intros ->.
    + by intros h ->.
  - eapply Forall_impl; [done|]. simpl. intros e He c Hc. eauto.
  - done.
  - constructor.
Qed.

Lemma viewing_never_polls_witness :
  Forall (λ e, starts_poll e = false) view_unfinished ∧
  currentSessionId (app (handle_all boot view_unfinished)) = Some "s2" ∧
  phase (app (handle_all boot view_unfinished)) = Some Processing ∧
  timers (app (handle_all boot view_unfinished)) = [].
Proof.
  assert (H : Forall (λ e, starts_poll e = false) view_unfinished) by (repeat constructor).
  split_and!; [exact H|vm_compute; reflexivity|vm_compute; reflexivity|].
  exact (proj2 (viewing_never_polls view_unfinished H)).
Defined.

(** X17.  The whole way through the page.  Some files are picked and
    submitted, the upload is answered with a session, the first status answer
    is not completed, the interval fires and the next answer is completed:
    the page is in the Processing phase with the first answer's rows and one
    interval until then, and ends in the Results phase with the last answer's
    rows, the session kept, no interval left, one upload and two status
    requests sent, no error shown and no call pending. *)
Theorem upload_reaches_results (files : list File) (sid s : string)
    (rows rows' : list FileRecord) :
  files ≠ [] → sid ≠ "" → s ≠ "completed" →
  let before := handle_all boot (take 6 (upload_to_results files sid s rows rows')) in
  let after := handle_all boot (upload_to_results files sid s rows rows') in
  phase (app before) = Some Processing ∧
  processingStatus (app before) = statusRow <$> rows ∧
  timers (app before) = [1%positive] ∧
  phase (app after) = Some Results ∧
  processingStatus (app after) = statusRow <$> rows' ∧
  currentSessionId (app after) = Some sid ∧
  statusCheckInterval (app after) = None ∧
  timers (app after) = [] ∧
  requests (log (app after))
  = [POST "/upload" ((λ file, ("files", FormFile file)) <$> files);
     GET ("/status/" +:+ sid); GET ("/status/" +:+ sid)] ∧
  error_toasts (log (app after)) = [] ∧
  Forall (λ c, c = Done) (calls after).
Proof.
  intros Hf Hs Hc. apply truthy_Some in Hs as Ht.
  destruct files as [|f fs]; [done|].
  unfold upload_to_results, handle_all. cbn [take foldl].
  remember (handle boot _) as s0 eqn:E0.
  run_in E0. rewrite handleFileSelection_eq in E0. run_in E0.
  remember (handle s0 _) as s1 eqn:E1. rewrite E0 in E1. run_in E1. clear E0 s0.
  remember (handle s1 _) as s2 eqn:E2. rewrite E1 in E2. run_in E2. clear E1 s1.
  remember (handle s2 _) as s3 eqn:E3. rewrite E2 in E3. run_in E3.
  rewrite !Ht in E3. run_in E3. clear E2 s2.
  remember (handle s3 _) as s4 eqn:E4. rewrite E3 in E4. run_in E4. clear E3 s3.
  remember (handle s4 _) as s5 eqn:E5. rewrite E4 in E5. run_in E5.
  rewrite displayProcessingStatus_eq in E5. run_in E5.
  rewrite bool_decide_eq_false_2 in E5 by congruence. run_in E5. clear E4 s4.
  remember (handle s5 _) as s6 eqn:E6. rewrite E5 in E6. run_in E6.
  rewrite bool_decide_eq_true_2 in E6 by constructor. run_in E6.
  rewrite !Ht in E6. run_in E6.
  remember (handle s6 _) as s7 eqn:E7. rewrite E6 in E7. run_in E7. clear E6 s6.
  remember (handle s7 _) as s8 eqn:E8. rewrite E7 in E8. run_in E8.
  rewrite displayProcessingStatus_eq in E8. run_in E8.
  rewrite bool_decide_eq_true_2 in E8 by done. run_in E8. clear E7 s7.
  rewrite E5, E8. cbn [app calls]. clear.
  split_and!.
  - apply phase_Processing. cbn [hidden]. set_unfold. intuition congruence.
  - reflexivity.
  - reflexivity.
  - apply phase_Results. cbn [hidden]. set_unfold. intuition congruence.
  - reflexivity.
  - reflexivity.
  - reflexivity.
  - reflexivity.
  - reflexivity.
  - reflexivity.
  - by repeat constructor.
Qed.

Lemma upload_reaches_results_witness :
  let rows := [ {| filename := "doc.pdf"; file_type := "pdf"; status := "processing" |} ] in
  let rows' := [ {| filename := "doc.pdf"; file_type := "pdf"; status := "completed" |} ] in
  let after := handle_all boot (upload_to_results [doc_pdf] "s1" "processing" rows rows') in
  [doc_pdf] ≠ [] ∧ "s1" ≠ "" ∧ "processing" ≠ "completed" ∧
  phase (app after) = Some Results ∧
  timers (app after) = [].
Proof.
  intros rows rows' after.
  assert (H1 : [doc_pdf] ≠ []) by discriminate.
  assert (H2 : "s1" ≠ "") by discriminate.
  assert (H3 : "processing" ≠ "completed") by discriminate.
  destruct (upload_reaches_results [doc_pdf] "s1" "processing" rows rows' H1 H2 H3)
    as (_ & _ & _ & Hp & _ & _ & _ & Ht & _).
  split_and!; [exact H1|exact H2|exact H3|exact Hp|exact Ht].
Defined.
